(** * Voice-first login and dashboard: turn controller, intent dispatch and
      credential draft

    Shallow embedding of
    - [src/hooks/useVoice.ts]   (the shared voice hook used by the dashboard),
    - [src/pages/Dashboard.tsx] (the dashboard's voice-command effect),
    - [src/pages/Login.tsx]     (the login screen, which carries its own
                                 [useVoice] with an auto-restart flag).

    Event handlers are embedded as functions from a snapshot of the state to
    the list of statements they execute ([Action]s).  This follows React: a
    handler reads the values captured by its closure and its [setX] calls only
    take effect once the handler has returned.  The list is then applied to
    the [World] in order. *)

From Stdlib Require Import String Ascii List Bool Arith Lia NArith DecimalString.
From stdpp Require Import gmap strings.
Import ListNotations.
Local Open Scope string_scope.

(** ** JavaScript string operations

    A JavaScript string is a sequence of UTF-16 code units.  The model uses
    Rocq's [string]; a character stands for the code unit with the same number,
    so the transcripts covered are the ones within Latin-1 (code units 0..255).
    The character classes below are the ECMAScript ones restricted to that
    range. *)
Module JS.

Definition code (c : ascii) : nat := nat_of_ascii c.

Definition inRange (lo hi : nat) (c : ascii) : bool :=
  (lo <=? code c)%nat && (code c <=? hi)%nat.

(** [\d] without the [u] flag: the ten ASCII digits. *)
Definition isDigit (c : ascii) : bool := inRange 48 57 c.

Definition isUpper (c : ascii) : bool := inRange 65 90 c.
Definition isLower (c : ascii) : bool := inRange 97 122 c.

(** [\w]: ASCII letters, digits and underscore. *)
Definition isWordChar (c : ascii) : bool :=
  isUpper c || isLower c || isDigit c || (code c =? 95)%nat.

(** White space and line terminators ([\s], and what [trim] strips):
    TAB, LF, VT, FF, CR, SPACE and NO-BREAK SPACE. *)
Definition isSpace (c : ascii) : bool :=
  inRange 9 13 c || (code c =? 32)%nat || (code c =? 160)%nat.

(** [String.prototype.toLowerCase], one code unit at a time: A-Z and the
    Latin-1 capitals (all of 192..222 but the multiplication sign 215). *)
Definition lowerChar (c : ascii) : ascii :=
  if isUpper c || (inRange 192 222 c && negb (code c =? 215)%nat)
  then ascii_of_nat (code c + 32) else c.

Fixpoint toLowerCase (s : string) : string :=
  match s with
  | EmptyString => EmptyString
  | String c t => String (lowerChar c) (toLowerCase t)
  end.

Fixpoint trimStart (s : string) : string :=
  match s with
  | EmptyString => EmptyString
  | String c t => if isSpace c then trimStart t else s
  end.

(** Drops trailing white space: a character is kept when it is not white
    space or when something is kept after it. *)
Fixpoint trimEnd (s : string) : string :=
  match s with
  | EmptyString => EmptyString
  | String c t =>
      match trimEnd t with
      | EmptyString => if isSpace c then EmptyString else String c EmptyString
      | r => String c r
      end
  end.

Definition trim (s : string) : string := trimEnd (trimStart s).

(** [s.includes(sub)] *)
Fixpoint includes (s sub : string) : bool :=
  String.prefix sub s ||
  match s with
  | EmptyString => false
  | String _ t => includes t sub
  end.

(** [kws.some(k => s.includes(k))]: the source writes the disjunction out
    as [s.includes(k1) || s.includes(k2) || ...]. *)
Definition includesAny (s : string) (kws : list string) : bool :=
  existsb (includes s) kws.

Fixpoint filterChars (keep : ascii -> bool) (s : string) : string :=
  match s with
  | EmptyString => EmptyString
  | String c t =>
      if keep c then String c (filterChars keep t) else filterChars keep t
  end.

Fixpoint existsChar (p : ascii -> bool) (s : string) : bool :=
  match s with
  | EmptyString => false
  | String c t => p c || existsChar p t
  end.

Fixpoint forallChar (p : ascii -> bool) (s : string) : bool :=
  match s with
  | EmptyString => true
  | String c t => p c && forallChar p t
  end.

(** [s.replace(/\D/g, '')] *)
Definition stripNonDigits (s : string) : string := filterChars isDigit s.

(** [s.replace(/[^a-zA-Z0-9\s]/g, '')] *)
Definition stripNonAlnumSpace (s : string) : string :=
  filterChars (fun c => isUpper c || isLower c || isDigit c || isSpace c) s.

(** [/\d/.test(s)] *)
Definition hasDigit (s : string) : bool := existsChar isDigit s.

(** Canonicalisation of the [i] flag (no [u] flag): a code unit below 128 is
    compared through its upper-case form, one above is never folded onto an
    ASCII letter. *)
Definition canon (c : ascii) : ascii :=
  if isLower c then ascii_of_nat (code c - 32) else c.

(** The characters of [w] occur at the head of [s], compared through
    [canon]; the result is what follows them. *)
Fixpoint matchPrefixCI (w s : string) : option string :=
  match w with
  | EmptyString => Some s
  | String a w' =>
      match s with
      | EmptyString => None
      | String c t =>
          if Ascii.eqb (canon a) (canon c) then matchPrefixCI w' t else None
      end
  end.

(** [/w/i.test(s)] for a literal [w]. *)
Fixpoint includesCI (s w : string) : bool :=
  match matchPrefixCI w s with
  | Some _ => true
  | None =>
      match s with
      | EmptyString => false
      | String _ t => includesCI t w
      end
  end.

(** The character at the head of [s] is a word character (false at the end
    of input): one side of the [\b] assertion. *)
Definition headIsWord (s : string) : bool :=
  match s with
  | EmptyString => false
  | String c _ => isWordChar c
  end.

Fixpoint lastIsWord (dflt : bool) (w : string) : bool :=
  match w with
  | EmptyString => dflt
  | String c t => lastIsWord (isWordChar c) t
  end.

(** [s.replace(new RegExp('\\b' + w + '\\b', 'gi'), d)] for a non-empty
    literal [w], scanning left to right.  [prev] tells whether the
    character before the current position is a word character; [skip] counts the characters of a match that are
    still to be dropped.  A match at the current position needs a word
    boundary in front ([prev] differs from the head of [s]), the literal [w]
    up to case, and a word boundary behind it. *)
Fixpoint replaceWordFrom (w d : string) (prev : bool) (skip : nat)
         (s : string) : string :=
  match s with
  | EmptyString => EmptyString
  | String c t =>
      match skip with
      | S k => replaceWordFrom w d (isWordChar c) k t
      | O =>
          match matchPrefixCI w s with
          | Some rest =>
              if xorb prev (headIsWord s)
                 && xorb (lastIsWord prev w) (headIsWord rest)
                 && negb (String.length w =? 0)%nat
              then d +:+ replaceWordFrom w d (isWordChar c)
                           (String.length w - 1) t
              else String c (replaceWordFrom w d (isWordChar c) 0 t)
          | None => String c (replaceWordFrom w d (isWordChar c) 0 t)
          end
      end
  end.

Definition replaceWord (w d s : string) : string :=
  replaceWordFrom w d false 0 s.

(** [s.slice(0, n)] *)
Definition slice0 (n : nat) (s : string) : string := substring 0 n s.

(** [s.split('').join(' ')] *)
Fixpoint spaced (s : string) : string :=
  match s with
  | EmptyString => EmptyString
  | String c EmptyString => s
  | String c t => String c (String " " (spaced t))
  end.

(** Template-literal rendering of a non-negative integer. *)
Definition showNat (n : nat) : string := NilZero.string_of_uint (Nat.to_uint n).

End JS.

(** ** The runtime: state cells, platform objects and scheduled callbacks

    The two platform services are outside the repository.  What the model
    takes from the Web Speech API is this: [recognition.start()] throws when
    the recognizer is already started and otherwise opens a session;
    [recognition.stop()] returns at once, and the session is over when the
    platform delivers [end]; result, error and end events are delivered only
    while a session is open; an utterance handed to [speechSynthesis.speak]
    gets a [start] event and then an [end] event unless [cancel()] removes it
    first. *)

(** The platform's speech-output queue, as far as the code can observe it.
    Both controllers call [cancel()] before every [speak(u)], so the queue
    never holds more than the latest utterance: it is waiting for its [start]
    event, or being spoken ([speechSynthesis.speaking]), or nothing is queued. *)
Inductive SynthState := SynthIdle | SynthPending | SynthSpeaking.

Inductive Tone :=
  ToneSuccess | ToneError | ToneNotification | ToneClick | ToneStart | ToneEnd.

Inductive LogEntry :=
| LogInfo (msg : string)    (* console.log *)
| LogError (msg : string).  (* console.error *)

Section Runtime.

(** [Page]: the state cells of the screen; [PageAct]: its setters;
    [Task]: the callbacks it passes to [setTimeout]. *)
Context {Page PageAct Task : Type}.

Record World := mkWorld {
  (* the controller's [useState] cells *)
  isListening : bool;
  isSpeaking : bool;
  transcript : string;
  lastResult : string;
  (* [recognitionRef.current] and [synthRef.current] are non-null *)
  recognitionRef : bool;
  synthRef : bool;
  (* platform: the recognizer has been started and its [end] event has not
     fired yet; the state of the speech-output queue *)
  recStarted : bool;
  synth : SynthState;
  (* the screen *)
  page : Page;
  (* what the outside sees *)
  spoken : list string;            (* texts handed to [speechSynthesis.speak] *)
  tones : list Tone;
  console : list LogEntry;
  storage : gmap string string;    (* [localStorage] *)
  href : string;                   (* current location *)
  (* the clock, in milliseconds, and the pending [setTimeout] callbacks *)
  now : nat;
  timers : list (nat * Task)
}.

(** One statement of a handler. *)
Inductive Action :=
| SetIsListening (b : bool)
| SetIsSpeaking (b : bool)
| SetTranscript (s : string)
| SetLastResult (s : string)
| RecognitionStart                 (* [recognition.start()], accepted *)
| RecognitionStop                  (* [recognition.stop()] *)
| SynthCancel                      (* [speechSynthesis.cancel()] *)
| SynthSpeak (text : string)       (* [speechSynthesis.speak(utterance)] *)
| PageDo (a : PageAct)
| PlayTone (t : Tone)
| Console (e : LogEntry)
| StorageSetItem (k v : string)    (* [localStorage.setItem(k, v)] *)
| SetLocation (url : string)       (* [window.location.href = url], [navigate(url)] *)
| SetTimeout (t : Task) (delay : nat).

Variable applyPage : PageAct -> Page -> Page.

Definition apply (a : Action) (w : World) : World :=
  match w with
  | mkWorld li sp tr lr rr sr rs sy pg spk tn co st hr nw tm =>
      match a with
      | SetIsListening b => mkWorld b sp tr lr rr sr rs sy pg spk tn co st hr nw tm
      | SetIsSpeaking b => mkWorld li b tr lr rr sr rs sy pg spk tn co st hr nw tm
      | SetTranscript s => mkWorld li sp s lr rr sr rs sy pg spk tn co st hr nw tm
      | SetLastResult s => mkWorld li sp tr s rr sr rs sy pg spk tn co st hr nw tm
      | RecognitionStart => mkWorld li sp tr lr rr sr true sy pg spk tn co st hr nw tm
      | RecognitionStop => w
      | SynthCancel => mkWorld li sp tr lr rr sr rs SynthIdle pg spk tn co st hr nw tm
      | SynthSpeak text =>
          mkWorld li sp tr lr rr sr rs
                  (match sy with SynthIdle => SynthPending | _ => sy end)
                  pg (spk ++ [text]) tn co st hr nw tm
      | PageDo pa => mkWorld li sp tr lr rr sr rs sy (applyPage pa pg) spk tn co st hr nw tm
      | PlayTone t => mkWorld li sp tr lr rr sr rs sy pg spk (tn ++ [t]) co st hr nw tm
      | Console e => mkWorld li sp tr lr rr sr rs sy pg spk tn (co ++ [e]) st hr nw tm
      | StorageSetItem k v => mkWorld li sp tr lr rr sr rs sy pg spk tn co (<[k:=v]> st) hr nw tm
      | SetLocation url => mkWorld li sp tr lr rr sr rs sy pg spk tn co st url nw tm
      | SetTimeout t d => mkWorld li sp tr lr rr sr rs sy pg spk tn co st hr nw (tm ++ [(nw + d, t)])
      end
  end.

(** Runs the statements of a handler in order. *)
Definition run (acts : list Action) (w : World) : World :=
  fold_left (fun w a => apply a w) acts w.

(** A handler computes its statements from the state it was created in. *)
Definition fire (h : World -> list Action) (w : World) : World := run (h w) w.

(** What the platform does before it delivers an event. *)
Definition platRecEnded (w : World) : World :=
  match w with
  | mkWorld li sp tr lr rr sr _ sy pg spk tn co st hr nw tm =>
      mkWorld li sp tr lr rr sr false sy pg spk tn co st hr nw tm
  end.

Definition platSynth (sy : SynthState) (w : World) : World :=
  match w with
  | mkWorld li sp tr lr rr sr rs _ pg spk tn co st hr nw tm =>
      mkWorld li sp tr lr rr sr rs sy pg spk tn co st hr nw tm
  end.

(** [speechSynthesis.speaking] *)
Definition synthSpeaking (w : World) : bool :=
  match synth w with SynthSpeaking => true | _ => false end.

(** *** Timers *)

Variable runTask : Task -> World -> list Action.

Definition isDue (t : nat) (p : nat * Task) : bool := (fst p <=? t)%nat.

(** One millisecond passes; the callbacks that are due run in the order in
    which they were scheduled, each on the state the previous one left. *)
Definition tick (w : World) : World :=
  match w with
  | mkWorld li sp tr lr rr sr rs sy pg spk tn co st hr nw tm =>
      fold_left (fun w p => fire (runTask (snd p)) w)
                (List.filter (isDue (S nw)) tm)
                (mkWorld li sp tr lr rr sr rs sy pg spk tn co st hr (S nw)
                         (List.filter (fun p => negb (isDue (S nw) p)) tm))
  end.

Definition advance (ms : nat) (w : World) : World := Nat.iter ms tick w.

(** The world at clock value [t] with [tm] as its pending callbacks. *)
Definition atTime (t : nat) (tm : list (nat * Task)) (w : World) : World :=
  match w with
  | mkWorld li sp tr lr rr sr rs sy pg spk tn co st hr _ _ =>
      mkWorld li sp tr lr rr sr rs sy pg spk tn co st hr t tm
  end.

End Runtime.

Arguments World : clear implicits.
Arguments Action : clear implicits.

(** ** [src/hooks/useVoice.ts]: the shared voice hook

    Console output is modelled for the capture error handler only, whose
    logging is part of its contract; the progress messages and the messages
    of the [catch] blocks are left out.  The utterance
    parameters (rate, pitch, volume, language) do not influence control flow
    and are not modelled. *)
Module Hook.
Section Hook.

Context {Page PageAct Task : Type}.
Abbreviation World := (World Page Task).
Abbreviation Action := (Action PageAct Task).

(** [recognition.onstart] *)
Definition recognitionOnStart (w : World) : list Action :=
  [SetIsListening true].

(** [recognition.onresult]; [results] is [event.results] from
    [event.resultIndex] on, each entry with its [isFinal] flag and the
    transcript of its first alternative. *)
Definition recognitionOnResult (results : list (bool * string)) (w : World)
  : list Action :=
  let interimTranscript :=
    fold_left (fun acc (r : bool * string) => if fst r then acc else acc +:+ snd r)
              results "" in
  let finalTranscript :=
    fold_left (fun acc (r : bool * string) => if fst r then acc +:+ snd r else acc)
              results "" in
  if negb (String.eqb finalTranscript "") then
    [SetLastResult (JS.trim finalTranscript);
     SetTranscript (JS.trim finalTranscript)]
  else if negb (String.eqb interimTranscript "") then
    [SetTranscript interimTranscript]
  else [].

(** [recognition.onend] *)
Definition recognitionOnEnd (w : World) : list Action :=
  [SetIsListening false].

(** [recognition.onerror] *)
Definition recognitionOnError (error : string) (w : World) : list Action :=
  [Console (LogInfo ("Speech recognition error: " +:+ error))]
  ++ (if negb (String.eqb error "no-speech") && negb (String.eqb error "aborted")
      then [Console (LogError ("Speech recognition error: " +:+ error))]
      else [])
  ++ [SetIsListening false].

(** [startListening]; [recognition.start()] throws when the recognizer is
    already started, and the exception is caught and logged. *)
Definition startListening (w : World) : list Action :=
  if negb (recognitionRef w) then []
  else
    (if synthRef w then [SynthCancel; SetIsSpeaking false] else [])
    ++ [SetTranscript ""]
    ++ (if recStarted w then [] else [RecognitionStart]).

(** [stopListening] *)
Definition stopListening (w : World) : list Action :=
  if negb (recognitionRef w) then []
  else [RecognitionStop; SetIsListening false].

(** [speak] *)
Definition speak (text : string) (w : World) : list Action :=
  if negb (synthRef w) then []
  else [SynthCancel; SynthSpeak text].

(** [utterance.onstart], [utterance.onend], [utterance.onerror] *)
Definition utteranceOnStart (w : World) : list Action := [SetIsSpeaking true].
Definition utteranceOnEnd (w : World) : list Action := [SetIsSpeaking false].
Definition utteranceOnError (w : World) : list Action := [SetIsSpeaking false].

(** [stopSpeaking] *)
Definition stopSpeaking (w : World) : list Action :=
  if negb (synthRef w) then [] else [SynthCancel; SetIsSpeaking false].

(** [clearTranscript] *)
Definition clearTranscript : list Action :=
  [SetTranscript ""; SetLastResult ""].

End Hook.
End Hook.

(** ** [src/pages/Dashboard.tsx]

    The model covers the voice-command effect and [handleModeSelect].  The
    effects that speak the welcome message and switch the microphone back on
    with timers, and the keyboard navigation between the cards, only add calls
    of [speak] and [startListening]; they are represented by the events
    [CallSpeak] and [CallStartListening].  [step] therefore runs the
    voice-command effect only: the welcome effect (500 ms after mount), the
    two effects that call [startListening] 500 ms and 800 ms after capture or
    speech has stopped, and the effect that announces the selected card are
    not scheduled by the model.  A sequence of events contains their calls
    where the screen makes them; what is proved for every sequence of events
    holds for those too, and a statement about one handler says nothing about
    the calls these effects add afterwards. *)
Module Dashboard.

Inductive DashboardMode :=
  ModeHome | ModeTeach | ModeExam | ModeLevel | ModeSchemes | ModeJobs | ModeHistory.

Record Page := mkPage { currentMode : DashboardMode; isMuted : bool }.

Inductive PageAct :=
| SetCurrentMode (m : DashboardMode)
| SetIsMuted (b : bool).

Definition applyPage (a : PageAct) (p : Page) : Page :=
  match a with
  | SetCurrentMode m => mkPage m (isMuted p)
  | SetIsMuted b => mkPage (currentMode p) b
  end.

(** [setTimeout(() => navigate('/'), 1500)] *)
Inductive Task := TaskNavigateRoot.

Abbreviation World := (World Page Task).
Abbreviation Action := (Action PageAct Task).

Definition runTask (t : Task) (w : World) : list Action :=
  match t with
  | TaskNavigateRoot => [SetLocation "/"]
  end.

(** The branch of the voice-command chain that a command selects. *)
Inductive Intent :=
| Teach | Exam | Level | Schemes | Jobs | History
| Home | Repeat | Logout | Help | Unrecognized.

(** The [if ... else if ...] chain of the voice-command effect, in source
    order. *)
Definition classify (command : string) : Intent :=
  if JS.includesAny command ["teach me"; "teach"] then Teach
  else if JS.includesAny command ["exam"; "prepare"] then Exam
  else if JS.includesAny command ["level"; "check"] then Level
  else if JS.includesAny command ["scheme"; "government"] then Schemes
  else if JS.includesAny command ["job"; "work"; "employment"] then Jobs
  else if JS.includesAny command ["continue"; "resume"; "history"] then History
  else if JS.includesAny command ["home"; "dashboard"; "main menu"] then Home
  else if JS.includesAny command ["repeat"; "say again"] then Repeat
  else if JS.includesAny command ["logout"; "log out"; "exit"] then Logout
  else if JS.includesAny command ["help"] then Help
  else Unrecognized.

(** [speakModeInstructions]'s table *)
Definition instructions (m : DashboardMode) : string :=
  match m with
  | ModeHome => "You are on your dashboard. You can say: Teach me, Prepare me for an exam, Find government schemes, Find jobs, Check my level, or Continue where we stopped."
  | ModeTeach => "Teaching mode. Say any subject like mathematics, science, or history. I will explain it step by step."
  | ModeExam => "Exam preparation mode. Tell me which exam you are preparing for. I know about UPSC, SSC, bank exams, and more."
  | ModeLevel => "Level check mode. I will ask you questions to understand your knowledge. Say start when ready."
  | ModeSchemes => "Government schemes for blind people. I can help with scholarships, pensions, skill development, and assistive devices."
  | ModeJobs => "Job search mode. I can find government jobs, private sector jobs, and work from home opportunities for visually impaired."
  | ModeHistory => "Your learning history. I remember your preferences and progress. Would you like to continue your last session?"
  end.

Definition speakModeInstructions (m : DashboardMode) (w : World) : list Action :=
  Hook.speak (instructions m) w.

Definition examPrompt : string :=
  "Exam preparation mode. Which exam are you preparing for? Say UPSC, SSC, or tell me the exam name.".

Definition helpPrompt : string :=
  "You can say: Teach me to learn subjects, Prepare for exam, Check my level, Find government schemes, Find jobs, or Continue learning. Say Home to return to main menu.".

(** The body of each branch of the chain. *)
Definition respond (i : Intent) (w : World) : list Action :=
  match i with
  | Teach =>
      [PageDo (SetCurrentMode ModeTeach)]
      ++ Hook.speak "Teaching mode activated. What subject would you like to learn? You can say mathematics, science, history, or any subject." w
  | Exam =>
      [PageDo (SetCurrentMode ModeExam)] ++ Hook.speak examPrompt w
  | Level =>
      [PageDo (SetCurrentMode ModeLevel)]
      ++ Hook.speak "Level assessment mode. I will ask you some questions to understand your knowledge level. Say start when ready." w
  | Schemes =>
      [PageDo (SetCurrentMode ModeSchemes)]
      ++ Hook.speak "Government schemes mode. I can help you find scholarships, pensions, and disability support programs. What would you like to explore?" w
  | Jobs =>
      [PageDo (SetCurrentMode ModeJobs)]
      ++ Hook.speak "Job search mode. I can find accessible jobs in government, private sector, or work from home opportunities. What type of job interests you?" w
  | History =>
      [PageDo (SetCurrentMode ModeHistory)]
      ++ Hook.speak "Welcome back! Last time we were learning about mathematics. Would you like to continue, or start something new?" w
  | Home =>
      [PageDo (SetCurrentMode ModeHome)]
      ++ Hook.speak "You are on the main dashboard. Choose from: Teach me, Exam preparation, Check my level, Government schemes, Find jobs, or Continue learning." w
  | Repeat => speakModeInstructions (currentMode (page w)) w
  | Logout =>
      Hook.speak "Logging out. Goodbye!" w ++ [SetTimeout TaskNavigateRoot 1500]
  | Help => Hook.speak helpPrompt w
  | Unrecognized => []
  end.

(** The effect "Process voice commands when we get a final result". *)
Definition voiceCommandEffect (w : World) : list Action :=
  if String.eqb (lastResult w) "" then []
  else
    let command := JS.trim (JS.toLowerCase (lastResult w)) in
    (if isMuted (page w) then [] else [PlayTone ToneNotification])
    ++ respond (classify command) w
    ++ Hook.clearTranscript.

(** [handleModeSelect] (card activation, Enter or Space on a card) *)
Definition handleModeSelect (m : DashboardMode) (w : World) : list Action :=
  [PlayTone ToneClick; PageDo (SetCurrentMode m)] ++ speakModeInstructions m w.

(** What can happen to the mounted dashboard: calls of the hook's
    operations, a card activation, callbacks of the two platform services,
    and time passing. *)
Inductive Event :=
| CallStartListening
| CallStopListening
| CallSpeak (text : string)
| CallStopSpeaking
| SelectMode (m : DashboardMode)
| RecOnStart
| RecOnResult (results : list (bool * string))
| RecOnEnd
| RecOnError (error : string)
| UttOnStart
| UttOnEnd
| UttOnError
| Elapse (ms : nat).

Definition guard (b : bool) (w : World) : option World :=
  if b then Some w else None.

(** The handler of an event; [None] when the platform cannot deliver the
    event in this state (no session is open, no utterance is queued). *)
Definition handle (e : Event) (w : World) : option World :=
  match e with
  | CallStartListening => Some (fire applyPage Hook.startListening w)
  | CallStopListening => Some (fire applyPage Hook.stopListening w)
  | CallSpeak text => Some (fire applyPage (Hook.speak text) w)
  | CallStopSpeaking => Some (fire applyPage Hook.stopSpeaking w)
  | SelectMode m => Some (fire applyPage (handleModeSelect m) w)
  | RecOnStart =>
      guard (recStarted w) (fire applyPage Hook.recognitionOnStart w)
  | RecOnResult results =>
      guard (recStarted w)
            (fire applyPage (Hook.recognitionOnResult results) w)
  | RecOnEnd =>
      guard (recStarted w)
            (fire applyPage Hook.recognitionOnEnd (platRecEnded w))
  | RecOnError error =>
      guard (recStarted w)
            (fire applyPage (Hook.recognitionOnError error) w)
  | UttOnStart =>
      guard (match synth w with SynthPending => true | _ => false end)
            (fire applyPage Hook.utteranceOnStart (platSynth SynthSpeaking w))
  | UttOnEnd =>
      guard (synthSpeaking w)
            (fire applyPage Hook.utteranceOnEnd (platSynth SynthIdle w))
  | UttOnError =>
      guard (match synth w with SynthIdle => false | _ => true end)
            (fire applyPage Hook.utteranceOnError (platSynth SynthIdle w))
  | Elapse ms => Some (advance applyPage runTask ms w)
  end.

(** An event, then the re-render with its effects. *)
Definition step (e : Event) (w : World) : option World :=
  match handle e w with
  | Some w' => Some (fire applyPage voiceCommandEffect w')
  | None => None
  end.

Fixpoint steps (es : list Event) (w : World) : option World :=
  match es with
  | [] => Some w
  | e :: es' =>
      match step e w with
      | Some w' => steps es' w'
      | None => None
      end
  end.

(** The freshly mounted dashboard in a browser that has both services. *)
Definition initial : World :=
  mkWorld false false "" "" true true false SynthIdle
          (mkPage ModeHome false) [] [] [] ∅ "/dashboard" 0 [].

(** *** The dispatch chain as a table *)

(** The keywords each branch of the chain tests for. *)
Definition keywords (i : Intent) : list string :=
  match i with
  | Teach => ["teach me"; "teach"]
  | Exam => ["exam"; "prepare"]
  | Level => ["level"; "check"]
  | Schemes => ["scheme"; "government"]
  | Jobs => ["job"; "work"; "employment"]
  | History => ["continue"; "resume"; "history"]
  | Home => ["home"; "dashboard"; "main menu"]
  | Repeat => ["repeat"; "say again"]
  | Logout => ["logout"; "log out"; "exit"]
  | Help => ["help"]
  | Unrecognized => []
  end.

(** The predicate of a branch: the command contains one of its keywords. *)
Definition matches (i : Intent) (command : string) : bool :=
  JS.includesAny command (keywords i).

(** The position of a branch in the chain. *)
Definition rank (i : Intent) : nat :=
  match i with
  | Teach => 0 | Exam => 1 | Level => 2 | Schemes => 3 | Jobs => 4
  | History => 5 | Home => 6 | Repeat => 7 | Logout => 8 | Help => 9
  | Unrecognized => 10
  end.

(** The three tiers by which the specification orders the intents:
    "explicit navigation keywords (login/register/help/logout/home) before
    mode-specific content keywords, before generic fallbacks
    (repeat/clear/submit)". *)
Inductive Tier := Navigation | Content | Generic.

Definition tierRank (t : Tier) : nat :=
  match t with Navigation => 0 | Content => 1 | Generic => 2 end.

Definition specTier (i : Intent) : option Tier :=
  match i with
  | Home | Logout | Help => Some Navigation
  | Teach | Exam | Level | Schemes | Jobs | History => Some Content
  | Repeat => Some Generic
  | Unrecognized => None
  end.

End Dashboard.

(** ** [src/pages/Login.tsx]

    The login screen does not use the shared hook: it defines a [useVoice] of
    its own, with the ref [shouldRestartRef] that arms the automatic restart
    of capture.  Console output is modelled for the capture error handler
    only; the progress messages and the messages of the [catch] blocks are
    left out.
    [speak]'s optional [callback] is not modelled: no call in the repository
    passes one.
    The welcome effect (800 ms after mount it speaks the welcome message and
    plays the start tone) is not scheduled by [step]; its call of [speak] is
    the event [CallSpeak].  The events [ClickClear] and [ClickSubmit] are
    accepted in every state, although the form is rendered in login and
    register mode only and the submit button is disabled while [isProcessing]
    is set: the model admits more sequences of events than the screen, so
    what holds for every sequence holds for the screen's. *)
Module Login.

Inductive AuthMode := ModeWelcome | ModeLogin | ModeRegister | ModeHelp.

Record Page := mkPage {
  mode : AuthMode;
  pin : string;
  username : string;
  error : string;
  isProcessing : bool;
  shouldRestart : bool   (* [shouldRestartRef.current] *)
}.

Inductive PageAct :=
| SetMode (m : AuthMode)
| SetPin (s : string)
| SetUsername (s : string)
| SetError (s : string)
| SetIsProcessing (b : bool)
| SetShouldRestart (b : bool).

Definition applyPage (a : PageAct) (p : Page) : Page :=
  match p with
  | mkPage m pn u e ip sr =>
      match a with
      | SetMode m' => mkPage m' pn u e ip sr
      | SetPin s => mkPage m s u e ip sr
      | SetUsername s => mkPage m pn s e ip sr
      | SetError s => mkPage m pn u s ip sr
      | SetIsProcessing b => mkPage m pn u e b sr
      | SetShouldRestart b => mkPage m pn u e ip b
      end
  end.

(** The callbacks handed to [setTimeout].  A callback keeps the values its
    closure captured: the continuation of [handleSubmit] still sees the
    [username] and the [isListening] of the render in which the form was
    submitted. *)
Inductive Task :=
| TaskRestartAfterSpeech     (* in [utterance.onend], after 50 ms *)
| TaskRestartAfterEnd        (* in [recognition.onend], after 100 ms *)
| TaskSubmitResume (capturedUsername : string) (capturedIsListening : bool)
                             (* [handleSubmit] after its 1500 ms pause *)
| TaskGoDashboard.           (* in [handleSubmit], after 2500 ms more *)

Abbreviation World := (World Page Task).
Abbreviation Action := (Action PageAct Task).

(** *** The screen's own [useVoice] *)

(** [recognition.onresult]: the transcript of [event.results[event.resultIndex]]
    and its [isFinal] flag. *)
Definition recognitionOnResult (transcriptText : string) (isFinal : bool)
           (w : World) : list Action :=
  [SetTranscript transcriptText]
  ++ (if isFinal then [SetLastResult transcriptText] else []).

(** [recognition.onerror] *)
Definition recognitionOnError (error : string) (w : World) : list Action :=
  [Console (LogError ("Speech recognition error: " +:+ error))].

(** [try { recognition.start(); setIsListening(true); } catch (e) { }]:
    [start()] throws when the recognizer is already started. *)
Definition tryStart (w : World) : list Action :=
  if recStarted w then [] else [RecognitionStart; SetIsListening true].

(** [recognition.onend] *)
Definition recognitionOnEnd (w : World) : list Action :=
  [SetIsListening false]
  ++ (if shouldRestart (page w) && negb (synthRef w && synthSpeaking w)
      then [SetTimeout TaskRestartAfterEnd 100] else []).

(** [startListening] *)
Definition startListening (w : World) : list Action :=
  if recognitionRef w && negb (isListening w) then
    [SetTranscript ""; SetLastResult ""; PageDo (SetShouldRestart true)]
    ++ tryStart w
  else [].

(** [stopListening] *)
Definition stopListening (w : World) : list Action :=
  [PageDo (SetShouldRestart false)]
  ++ (if recognitionRef w && isListening w
      then [RecognitionStop; SetIsListening false] else []).

(** [speak]; [heardListening] is the [isListening] captured by the closure
    that makes the call. *)
Definition speak (heardListening : bool) (text : string) (w : World)
  : list Action :=
  if synthRef w then
    (if heardListening
     then [PageDo (SetShouldRestart false)]
          ++ (if recognitionRef w then [RecognitionStop] else [])
     else [])
    ++ [SynthCancel; SynthSpeak text]
  else [].

(** [utterance.onstart] *)
Definition utteranceOnStart (w : World) : list Action := [SetIsSpeaking true].

(** [utterance.onend] *)
Definition utteranceOnEnd (w : World) : list Action :=
  [SetIsSpeaking false; PageDo (SetShouldRestart true)]
  ++ (if recognitionRef w then [SetTimeout TaskRestartAfterSpeech 50] else []).

(** [clearTranscript] *)
Definition clearTranscript : list Action :=
  [SetTranscript ""; SetLastResult ""].

(** *** The [Login] component *)

Definition messages (m : AuthMode) : string :=
  match m with
  | ModeWelcome => "Welcome screen. Say Login, Register, or Help."
  | ModeLogin => "Login mode. Say your username first, then say your pin numbers."
  | ModeRegister => "Register mode. Say your username, then your pin numbers."
  | ModeHelp => "Help mode. Available commands: Login, Register, Go back. Say your username, then numbers for PIN."
  end.

(** [handleModeChange] *)
Definition handleModeChange (newMode : AuthMode) (w : World) : list Action :=
  [PlayTone ToneClick; PageDo (SetMode newMode); PageDo (SetError "")]
  ++ (match newMode with
      | ModeWelcome => [PageDo (SetPin ""); PageDo (SetUsername "")]
      | _ => []
      end)
  ++ speak (isListening w) (messages newMode) w.

(** [handleClearForm] *)
Definition handleClearForm (w : World) : list Action :=
  [PageDo (SetPin ""); PageDo (SetUsername ""); PageDo (SetError "")]
  ++ speak (isListening w) "Form cleared. Say your username." w
  ++ [PlayTone ToneNotification].

Definition validationError : string :=
  "Please provide username and at least 4-digit pin".

Definition validationSpeech : string :=
  "Error. Provide username and at least 4 digit pin.".

(** [handleSubmit], up to its [await] *)
Definition handleSubmit (w : World) : list Action :=
  if String.eqb (username (page w)) ""
     || (String.length (pin (page w)) <? 4)%nat
  then
    [PageDo (SetError validationError)]
    ++ speak (isListening w) validationSpeech w
    ++ [PlayTone ToneError]
  else
    [PageDo (SetIsProcessing true)]
    ++ speak (isListening w) "Processing your request." w
    ++ [SetTimeout (TaskSubmitResume (username (page w)) (isListening w)) 1500].

Definition runTask (t : Task) (w : World) : list Action :=
  match t with
  | TaskRestartAfterSpeech => tryStart w
  | TaskRestartAfterEnd => tryStart w
  | TaskSubmitResume capturedUsername capturedIsListening =>
      [PlayTone ToneSuccess]
      ++ speak capturedIsListening "Login successful! Welcome to your dashboard." w
      ++ [StorageSetItem "isLoggedIn" "true";
          StorageSetItem "username" capturedUsername;
          SetTimeout TaskGoDashboard 2500]
  | TaskGoDashboard => [SetLocation "/dashboard"]
  end.

(** *** The voice-command effect *)

Definition isFormMode (m : AuthMode) : bool :=
  match m with
  | ModeLogin | ModeRegister => true
  | _ => false
  end.

(** [/zero|one|two|three|four|five|six|seven|eight|nine/i] *)
Definition numberNames : list string :=
  ["zero"; "one"; "two"; "three"; "four"; "five"; "six"; "seven"; "eight"; "nine"].

(** "Username detection": the cleaned-up name an utterance yields, if any. *)
Definition usernameCandidate (command : string) : option string :=
  let hasNumbers :=
    JS.hasDigit command || existsb (JS.includesCI command) numberNames in
  if negb hasNumbers && (2 <=? String.length command)%nat then
    let cleanUsername := JS.trim (JS.stripNonAlnumSpace command) in
    if (2 <=? String.length cleanUsername)%nat then Some cleanUsername else None
  else None.

(** [Object.entries(numberWords)], in insertion order *)
Definition numberWords : list (string * string) :=
  [("zero", "0"); ("one", "1"); ("two", "2"); ("three", "3"); ("four", "4");
   ("five", "5"); ("six", "6"); ("seven", "7"); ("eight", "8"); ("nine", "9");
   ("oh", "0"); ("to", "2"); ("too", "2"); ("for", "4"); ("fore", "4");
   ("ate", "8")].

(** "PIN detection": every number word is replaced by its digit, one word
    after the other, and what is not a digit is dropped. *)
Definition spokenDigits (command : string) : string :=
  JS.stripNonDigits
    (fold_left (fun processedCommand (e : string * string) =>
                  JS.replaceWord (fst e) (snd e) processedCommand)
               numberWords command).

(** The branch of the voice-command effect that a command selects. *)
Inductive Intent :=
| GoLogin | GoRegister | GoHelp | GoBack
| ClearForm | SubmitForm
| Username (cleanUsername : string)
| PinDigits (numbers : string)
| NoMatch.

(** The tests of the effect in source order; each [if] of the source ends in
    [return], so the first test that succeeds decides. *)
Definition classify (m : AuthMode) (user : string) (command : string) : Intent :=
  if JS.includesAny command ["login"; "log in"; "sign in"] then GoLogin
  else if JS.includesAny command ["register"; "sign up"; "signup"; "create account"]
  then GoRegister
  else if JS.includesAny command ["help"] then GoHelp
  else if JS.includesAny command ["go back"; "back"; "cancel"; "home"] then GoBack
  else if isFormMode m then
    if JS.includesAny command ["clear"; "clear form"; "start over"; "reset"]
    then ClearForm
    else if JS.includesAny command ["submit"; "confirm"; "done"; "finish"]
    then SubmitForm
    else
      match (if String.eqb user "" then usernameCandidate command else None) with
      | Some cleanUsername => Username cleanUsername
      | None =>
          let numbers := spokenDigits command in
          if (0 <? String.length numbers)%nat then PinDigits numbers else NoMatch
      end
  else NoMatch.

Definition reminder (user : string) : string :=
  "Username is " +:+ user +:+ ". Say numbers for PIN, or say clear to start over.".

(** The body of each branch. *)
Definition respond (i : Intent) (w : World) : list Action :=
  match i with
  | GoLogin => handleModeChange ModeLogin w ++ clearTranscript
  | GoRegister => handleModeChange ModeRegister w ++ clearTranscript
  | GoHelp => handleModeChange ModeHelp w ++ clearTranscript
  | GoBack => handleModeChange ModeWelcome w ++ clearTranscript
  | ClearForm => handleClearForm w ++ clearTranscript
  | SubmitForm => handleSubmit w ++ clearTranscript
  | Username cleanUsername =>
      [PageDo (SetUsername cleanUsername)]
      ++ speak (isListening w)
               ("Username: " +:+ cleanUsername
                +:+ ". Now say PIN numbers, like one two three four.") w
      ++ clearTranscript
  | PinDigits numbers =>
      let newPin := pin (page w) +:+ numbers in
      let finalPin := JS.slice0 6 newPin in
      let spokenNumbers := JS.spaced numbers in
      [PageDo (SetPin finalPin)]
      ++ speak (isListening w)
               ("Added " +:+ spokenNumbers +:+ ". PIN now has "
                +:+ JS.showNat (String.length finalPin) +:+ " digits.") w
      ++ clearTranscript
  | NoMatch =>
      (if isFormMode (mode (page w)) && negb (String.eqb (username (page w)) "")
       then speak (isListening w) (reminder (username (page w))) w
       else [])
      ++ clearTranscript
  end.

(** The effect "Process voice commands". *)
Definition voiceCommandEffect (w : World) : list Action :=
  if String.eqb (lastResult w) "" || String.eqb (JS.trim (lastResult w)) ""
  then []
  else
    let command := JS.trim (JS.toLowerCase (lastResult w)) in
    [PlayTone ToneNotification]
    ++ respond (classify (mode (page w)) (username (page w)) command) w.

(** *** Events *)

Inductive Event :=
| CallStartListening
| CallStopListening
| CallSpeak (text : string)
| ClickMode (m : AuthMode)
| ClickClear
| ClickSubmit
| TypeUsername (value : string)
| TypePin (value : string)
| RecOnResult (transcriptText : string) (isFinal : bool)
| RecOnError (error : string)
| RecOnEnd
| UttOnStart
| UttOnEnd
| Elapse (ms : nat).

Definition guard (b : bool) (w : World) : option World :=
  if b then Some w else None.

(** The handler of an event; [None] when the platform cannot deliver the
    event in this state. *)
Definition handle (e : Event) (w : World) : option World :=
  match e with
  | CallStartListening => Some (fire applyPage startListening w)
  | CallStopListening => Some (fire applyPage stopListening w)
  | CallSpeak text => Some (fire applyPage (fun w => speak (isListening w) text w) w)
  | ClickMode m => Some (fire applyPage (handleModeChange m) w)
  | ClickClear => Some (fire applyPage handleClearForm w)
  | ClickSubmit => Some (fire applyPage handleSubmit w)
  | TypeUsername value =>
      Some (fire applyPage (fun _ => [PageDo (SetUsername value)]) w)
  | TypePin value =>
      Some (fire applyPage (fun _ => [PageDo (SetPin (JS.stripNonDigits value))]) w)
  | RecOnResult transcriptText isFinal =>
      guard (recStarted w)
            (fire applyPage (recognitionOnResult transcriptText isFinal) w)
  | RecOnError error =>
      guard (recStarted w) (fire applyPage (recognitionOnError error) w)
  | RecOnEnd =>
      guard (recStarted w) (fire applyPage recognitionOnEnd (platRecEnded w))
  | UttOnStart =>
      guard (match synth w with SynthPending => true | _ => false end)
            (fire applyPage utteranceOnStart (platSynth SynthSpeaking w))
  | UttOnEnd =>
      guard (synthSpeaking w)
            (fire applyPage utteranceOnEnd (platSynth SynthIdle w))
  | Elapse ms => Some (advance applyPage runTask ms w)
  end.

(** An event, then the re-render with its effects. *)
Definition step (e : Event) (w : World) : option World :=
  match handle e w with
  | Some w' => Some (fire applyPage voiceCommandEffect w')
  | None => None
  end.

Fixpoint steps (es : list Event) (w : World) : option World :=
  match es with
  | [] => Some w
  | e :: es' =>
      match step e w with
      | Some w' => steps es' w'
      | None => None
      end
  end.

(** The freshly mounted login screen in a browser that has both services. *)
Definition initial : World :=
  mkWorld false false "" "" true true false SynthIdle
          (mkPage ModeWelcome "" "" "" false true) [] [] [] ∅ "/" 0 [].

(** The screen with a given mode and credential draft. *)
Definition withDraft (m : AuthMode) (user pn : string) : World :=
  mkWorld false false "" "" true true false SynthIdle
          (mkPage m pn user "" false true) [] [] [] ∅ "/" 0 [].

(** A final transcript arrives while capture is running. *)
Definition hear (utterance : string) (w : World) : option World :=
  steps [CallStartListening; RecOnResult utterance true] w.

(** *** The tests of the effect as a table *)

Inductive Branch :=
| BLogin | BRegister | BHelp | BBack | BClear | BSubmit | BUsername | BPin.

Definition branch (i : Intent) : option Branch :=
  match i with
  | GoLogin => Some BLogin
  | GoRegister => Some BRegister
  | GoHelp => Some BHelp
  | GoBack => Some BBack
  | ClearForm => Some BClear
  | SubmitForm => Some BSubmit
  | Username _ => Some BUsername
  | PinDigits _ => Some BPin
  | NoMatch => None
  end.

(** The predicate of a branch in mode [m] with [user] as the username
    captured so far.  The form branches exist in login and register mode
    only; the username branch only while no username is captured. *)
Definition matches (m : AuthMode) (user : string) (b : Branch)
           (command : string) : bool :=
  match b with
  | BLogin => JS.includesAny command ["login"; "log in"; "sign in"]
  | BRegister =>
      JS.includesAny command ["register"; "sign up"; "signup"; "create account"]
  | BHelp => JS.includesAny command ["help"]
  | BBack => JS.includesAny command ["go back"; "back"; "cancel"; "home"]
  | BClear =>
      isFormMode m
      && JS.includesAny command ["clear"; "clear form"; "start over"; "reset"]
  | BSubmit =>
      isFormMode m
      && JS.includesAny command ["submit"; "confirm"; "done"; "finish"]
  | BUsername =>
      isFormMode m && String.eqb user ""
      && match usernameCandidate command with Some _ => true | None => false end
  | BPin => isFormMode m && (0 <? String.length (spokenDigits command))%nat
  end.

(** The position of a branch in the effect. *)
Definition rank (b : Branch) : nat :=
  match b with
  | BLogin => 0 | BRegister => 1 | BHelp => 2 | BBack => 3
  | BClear => 4 | BSubmit => 5 | BUsername => 6 | BPin => 7
  end.

(** The command the effect derives from the final transcript. *)
Definition commandOf (w : World) : string :=
  JS.trim (JS.toLowerCase (lastResult w)).

(** The effect's guard [!lastResult || lastResult.trim() === ''] fails. *)
Definition hasCommand (w : World) : bool :=
  negb (String.eqb (lastResult w) "" || String.eqb (JS.trim (lastResult w)) "").



(** *** Scenarios *)

(** In login mode, with "rahul" captured as username and "12" as pin so far,
    capture delivers the final transcript "banana". *)
Definition heardBanana : World :=
  fire applyPage (recognitionOnResult "banana" true)
       (withDraft ModeLogin "rahul" "12").

End Login.

(** ** [src/pages/Dashboard.tsx]: cards, keyboard navigation and buttons *)
Module DashboardUI.

Record ModeConfig := mkModeConfig {
  id : Dashboard.DashboardMode;
  title : string;
  description : string;
  voiceCommand : string
}.

(** The array [modes] (icon and colour left out). *)
Definition modes : list ModeConfig :=
  [mkModeConfig Dashboard.ModeTeach "Teach Me"
     "Learn any subject with voice-guided lessons. Step-by-step explanations at your pace."
     "Teach me";
   mkModeConfig Dashboard.ModeExam "Exam Preparation"
     "Prepare for UPSC, SSC, and other accessible exams with practice questions."
     "Prepare me for exam";
   mkModeConfig Dashboard.ModeLevel "Check My Level"
     "Assess your knowledge level. I will adapt my teaching style to match."
     "Check my level";
   mkModeConfig Dashboard.ModeSchemes "Government Schemes"
     "Discover scholarships, pensions, and welfare programs for visually impaired."
     "Find government schemes";
   mkModeConfig Dashboard.ModeJobs "Find Jobs"
     "Explore accessible job opportunities in government and private sectors."
     "Find jobs";
   mkModeConfig Dashboard.ModeHistory "Continue Learning"
     "Resume where you left off. I remember your progress and preferences."
     "Continue where we stopped"].

(** The dashboard together with the state cell [selectedIndex]. *)
Record Screen := mkScreen {
  world : Dashboard.World;
  selectedIndex : Z
}.

(** [modes[i]]: [undefined] outside the array. *)
Definition modeAt (i : Z) : option ModeConfig :=
  if (i <? 0)%Z then None else nth_error modes (Z.to_nat i).

Definition atHome (s : Screen) : bool :=
  match Dashboard.currentMode (page (world s)) with
  | Dashboard.ModeHome => true
  | _ => false
  end.

(** [handleKeyDown]; [None] stands for the [TypeError] of reading [.id] of
    [undefined]. *)
Definition handleKeyDown (key : string) (s : Screen) : option Screen :=
  if negb (atHome s) then Some s
  else if String.eqb key "ArrowDown" then
    Some (mkScreen (world s)
                   (Z.min (selectedIndex s + 1)
                          (Z.of_nat (List.length modes) - 1)))
  else if String.eqb key "ArrowUp" then
    Some (mkScreen (world s) (Z.max (selectedIndex s - 1) 0))
  else if String.eqb key "Enter" || String.eqb key " " then
    match modeAt (selectedIndex s) with
    | Some m =>
        Some (mkScreen (fire Dashboard.applyPage
                             (Dashboard.handleModeSelect (id m)) (world s))
                       (selectedIndex s))
    | None => None
    end
  else Some s.

(** The effect "Announce selected item on change". *)
Definition announceSelected (s : Screen) : option Screen :=
  if atHome s && negb (isSpeaking (world s)) then
    match modeAt (selectedIndex s) with
    | Some m =>
        Some (mkScreen (fire Dashboard.applyPage
                             (Hook.speak (title m +:+ ". " +:+ description m))
                             (world s))
                       (selectedIndex s))
    | None => None
    end
  else Some s.

(** A key press and the re-render: the announcing effect depends on
    [selectedIndex] alone, so it runs only when the index has changed. *)
Definition keyDown (key : string) (s : Screen) : option Screen :=
  match handleKeyDown key s with
  | Some s' =>
      if (selectedIndex s' =? selectedIndex s)%Z then Some s'
      else announceSelected s'
  | None => None
  end.

Fixpoint keysDown (keys : list string) (s : Screen) : option Screen :=
  match keys with
  | [] => Some s
  | k :: ks =>
      match keyDown k s with
      | Some s' => keysDown ks s'
      | None => None
      end
  end.


(** The button "Back to Dashboard" of a mode view. *)
Definition handleBackClick (w : Dashboard.World) : list Dashboard.Action :=
  [PageDo (Dashboard.SetCurrentMode Dashboard.ModeHome)]
  ++ Hook.speak "Returning to main dashboard." w.

(** The branch of the voice-command chain that leads to a mode. *)
Definition intentFor (m : Dashboard.DashboardMode) : Dashboard.Intent :=
  match m with
  | Dashboard.ModeHome => Dashboard.Home
  | Dashboard.ModeTeach => Dashboard.Teach
  | Dashboard.ModeExam => Dashboard.Exam
  | Dashboard.ModeLevel => Dashboard.Level
  | Dashboard.ModeSchemes => Dashboard.Schemes
  | Dashboard.ModeJobs => Dashboard.Jobs
  | Dashboard.ModeHistory => Dashboard.History
  end.

End DashboardUI.

(** ** Invariants of the login screen *)
Module LoginInv.

(** What persistent storage may hold: nothing, or the marker "true" together
    with a username that is not empty. *)
Definition storageOk (st : gmap string string) : Prop :=
  match st !! "isLoggedIn", st !! "username" with
  | None, None => True
  | Some flag, Some user => flag = "true" /\ user <> ""
  | _, _ => False
  end.

Definition taskOk (t : Login.Task) : Prop :=
  match t with
  | Login.TaskSubmitResume capturedUsername _ => capturedUsername <> ""
  | _ => True
  end.

(** Every pending continuation of [handleSubmit] carries a username. *)
Definition timersOk (tm : list (nat * Login.Task)) : Prop :=
  Forall (fun p => taskOk (snd p)) tm.

Definition inv (w : Login.World) : Prop :=
  timersOk (timers w) /\ storageOk (storage w).

(** A statement that does not write to storage and schedules no
    continuation without a username. *)
Definition actOk (a : Login.Action) : Prop :=
  match a with
  | StorageSetItem _ _ => False
  | SetTimeout t _ => taskOk t
  | _ => True
  end.

(** Letters, the only characters a number word starts with. *)
Definition isLetter (c : ascii) : bool := JS.isUpper c || JS.isLower c.

End LoginInv.

Arguments JS.includesAny : simpl never.
Arguments advance : simpl never.
Arguments JS.trim : simpl never.
Arguments JS.toLowerCase : simpl never.
Arguments JS.slice0 : simpl never.
Arguments JS.showNat : simpl never.
Arguments JS.spaced : simpl never.
Arguments Login.usernameCandidate : simpl never.
Arguments Login.spokenDigits : simpl never.

(** * Verification *)

Local Open Scope list_scope.

(** Unfolds a handler on a symbolic world, splitting on the flags it reads. *)
Ltac open_world w :=
  destruct w as [li sp tr lr rr sr rs sy pg spk tn co st hr nw tm];
  destruct pg.

(** Splits on the flags a handler reads until its statements are known. *)
Ltac open_handlers :=
  cbn;
  unfold Login.handleModeChange, Login.handleClearForm, Login.handleSubmit,
    Login.startListening, Login.stopListening, Login.recognitionOnEnd,
    Login.recognitionOnResult, Login.recognitionOnError,
    Login.utteranceOnStart, Login.utteranceOnEnd,
    Login.speak, Login.tryStart, Hook.speak;
  cbn.

Ltac split_flags :=
  repeat (open_handlers;
          match goal with
          | |- context [if ?b then _ else _] => is_var b; destruct b
          | |- context [match ?s with SynthIdle => _ | _ => _ end] =>
              is_var s; destruct s
          | |- context [if ?b then _ else _] => destruct b eqn:?
          end);
  open_handlers.

(** ** Sanity checks of the embedding *)

Example js_trim : JS.trim "  Log In  " = "Log In".
Proof. reflexivity. Qed.

Example js_lower : JS.toLowerCase "Help Me" = "help me".
Proof. reflexivity. Qed.

Example js_replace_word :
  JS.replaceWord "one" "1" "one gone One" = "1 gone 1".
Proof. reflexivity. Qed.

Example js_replace_to_too :
  JS.replaceWord "to" "2" "to too into to" = "2 too into 2".
Proof. reflexivity. Qed.

Example login_rahul :
  option_map (fun w => (Login.username (page w), Login.pin (page w)))
             (Login.hear "rahul" (Login.withDraft Login.ModeLogin "" ""))
  = Some ("rahul", "").
Proof. vm_compute. reflexivity. Qed.

Example login_digits :
  option_map (fun w => (Login.username (page w), Login.pin (page w), spoken w))
             (Login.hear "one two three four" (Login.withDraft Login.ModeLogin "rahul" ""))
  = Some ("rahul", "1234", ["Added 1 2 3 4. PIN now has 4 digits."]).
Proof. vm_compute. reflexivity. Qed.

(** ** Dashboard: the order of the dispatch chain *)

(** C6. On the dashboard the transcript "help me prepare for exam" selects the
    exam branch of the dispatch chain and not the help branch: whatever the
    state, processing it as the final result sets the mode to exam and hands
    the exam prompt (not the help prompt) to speech output. *)
Theorem dashboard_help_me_prepare_for_exam :
  Dashboard.classify (JS.trim (JS.toLowerCase "help me prepare for exam"))
  = Dashboard.Exam
  /\ Dashboard.Exam <> Dashboard.Help
  /\ Dashboard.examPrompt <> Dashboard.helpPrompt
  /\ forall w : Dashboard.World,
      let heard :=
        fire Dashboard.applyPage
             (Hook.recognitionOnResult [(true, "help me prepare for exam")]) w in
      let w' := fire Dashboard.applyPage Dashboard.voiceCommandEffect heard in
      Dashboard.currentMode (page w') = Dashboard.ModeExam
      /\ spoken w' = spoken w ++ (if synthRef w then [Dashboard.examPrompt] else [])
      /\ lastResult w' = "".
Proof.
  split; [reflexivity |].
  split; [discriminate |].
  split; [discriminate |].
  intros w; open_world w.
  destruct sr, isMuted; cbn; rewrite ?app_nil_r; auto.
Qed.

(** Splits on the tests of a dispatch chain, outermost first. *)
Ltac split_chain :=
  repeat match goal with
         | |- context [if JS.includesAny ?c ?k then _ else _] =>
             destruct (JS.includesAny c k) eqn:?
         end.

Lemma dashboard_classify_rank (c : string) (i : Dashboard.Intent) :
  Dashboard.matches i c = true ->
  Dashboard.rank (Dashboard.classify c) <= Dashboard.rank i.
Proof.
  intros H. unfold Dashboard.matches in H.
  destruct i; cbn [Dashboard.keywords] in H;
    try (cbn in H; discriminate);
    unfold Dashboard.classify; rewrite H; split_chain; cbn; lia.
Qed.

Lemma dashboard_classify_sound (c : string) :
  Dashboard.classify c = Dashboard.Unrecognized
  \/ Dashboard.matches (Dashboard.classify c) c = true.
Proof.
  unfold Dashboard.classify. split_chain; auto.
Qed.

Lemma dashboard_no_match (c : string) :
  (forall i, Dashboard.matches i c = false) ->
  Dashboard.classify c = Dashboard.Unrecognized.
Proof.
  intros H. destruct (dashboard_classify_sound c) as [E | E]; [exact E |].
  rewrite H in E. discriminate.
Qed.

(** Splits on every test of the login screen's effect. *)
Ltac split_login :=
  repeat match goal with
         | |- context [if JS.includesAny ?c ?k then _ else _] =>
             destruct (JS.includesAny c k) eqn:?
         | |- context [if Login.isFormMode ?m then _ else _] =>
             destruct (Login.isFormMode m) eqn:?
         | |- context [if String.eqb ?u "" then _ else _] =>
             destruct (String.eqb u "") eqn:?
         | |- context [match Login.usernameCandidate ?c with _ => _ end] =>
             destruct (Login.usernameCandidate c) eqn:?
         | |- context [if (0 <? ?n)%nat then _ else _] =>
             destruct (0 <? n)%nat eqn:?
         end.

Lemma login_classify_rank (m : Login.AuthMode) (u c : string)
      (b b' : Login.Branch) :
  Login.matches m u b c = true ->
  Login.branch (Login.classify m u c) = Some b' ->
  Login.rank b' <= Login.rank b.
Proof.
  intros H. unfold Login.classify.
  destruct b; cbn [Login.matches] in H;
    repeat match type of H with
           | (_ && _)%bool = true => apply andb_prop in H; destruct H as [? H]
           end;
    split_login; cbn; intros E; inversion E; subst; cbn; try lia;
    try congruence.
Qed.

Lemma login_classify_sound (m : Login.AuthMode) (u c : string)
      (b : Login.Branch) :
  Login.branch (Login.classify m u c) = Some b ->
  Login.matches m u b c = true.
Proof.
  unfold Login.classify. split_login; cbn; intros E; inversion E; subst;
    cbn [Login.matches];
    repeat match goal with
           | H : _ = _ |- _ => rewrite H
           end; reflexivity.
Qed.

Lemma login_no_match (m : Login.AuthMode) (u c : string) :
  (forall b, Login.matches m u b c = false) ->
  Login.classify m u c = Login.NoMatch.
Proof.
  intros H.
  destruct (Login.classify m u c) eqn:E; try reflexivity;
    match goal with
    | |- ?i = _ =>
        assert (B : Login.branch (Login.classify m u c) = Login.branch i)
          by (rewrite E; reflexivity)
    end;
    cbn in B; apply login_classify_sound in B; rewrite H in B; discriminate.
Qed.

(** C7, counterexample.  The order claimed by the specification (navigation
    keywords before content keywords before generic fallbacks) is not the
    order of the dashboard's chain: "help me prepare for exam" matches the
    navigation keyword "help" and the content keyword "exam", and the content
    branch is taken. *)
Lemma tier_order_refuted :
  ~ (forall c i j ti tj,
        Dashboard.matches i c = true ->
        Dashboard.matches j c = true ->
        Dashboard.specTier i = Some ti ->
        Dashboard.specTier j = Some tj ->
        Dashboard.tierRank ti < Dashboard.tierRank tj ->
        Dashboard.classify c <> j).
Proof.
  intros H.
  apply (H "help me prepare for exam" Dashboard.Help Dashboard.Exam
           Dashboard.Navigation Dashboard.Content);
    try reflexivity.
  cbn. lia.
Qed.

Lemma dashboard_rank_injective (i j : Dashboard.Intent) :
  Dashboard.rank i = Dashboard.rank j -> i = j.
Proof. destruct i, j; cbn; intros H; try reflexivity; discriminate H. Qed.

Lemma login_rank_injective (b b' : Login.Branch) :
  Login.rank b = Login.rank b' -> b = b'.
Proof. destruct b, b'; cbn; intros H; try reflexivity; discriminate H. Qed.

Lemma dashboard_first_match (c : string) (i : Dashboard.Intent) :
  Dashboard.matches i c = true ->
  (forall j, Dashboard.rank j < Dashboard.rank i ->
             Dashboard.matches j c = false) ->
  Dashboard.classify c = i.
Proof.
  intros Hm Hfirst.
  pose proof (dashboard_classify_rank c i Hm) as Hr.
  destruct (dashboard_classify_sound c) as [E | E].
  - rewrite E in Hr. destruct i; cbn in Hr; try lia.
    cbn in Hm. discriminate Hm.
  - apply dashboard_rank_injective.
    destruct (Nat.eq_dec (Dashboard.rank (Dashboard.classify c))
                         (Dashboard.rank i)) as [Q | Q]; [exact Q |].
    rewrite Hfirst in E by lia. discriminate E.
Qed.

Lemma login_match_is_classified (m : Login.AuthMode) (u c : string)
      (b : Login.Branch) :
  Login.matches m u b c = true ->
  Login.classify m u c <> Login.NoMatch.
Proof.
  intros H. unfold Login.classify.
  destruct b; cbn [Login.matches] in H;
    repeat match type of H with
           | (_ && _)%bool = true => apply andb_prop in H; destruct H as [? H]
           end;
    split_login; try discriminate; congruence.
Qed.

Lemma login_first_match (m : Login.AuthMode) (u c : string)
      (b : Login.Branch) :
  Login.matches m u b c = true ->
  (forall b', Login.rank b' < Login.rank b ->
              Login.matches m u b' c = false) ->
  Login.branch (Login.classify m u c) = Some b.
Proof.
  intros Hm Hfirst.
  destruct (Login.branch (Login.classify m u c)) as [b0 |] eqn:E.
  - pose proof (login_classify_rank m u c b b0 Hm E) as Hr.
    pose proof (login_classify_sound m u c b0 E) as Hs.
    f_equal. apply login_rank_injective.
    destruct (Nat.eq_dec (Login.rank b0) (Login.rank b)) as [Q | Q];
      [exact Q |].
    rewrite Hfirst in Hs by lia. discriminate Hs.
  - exfalso. apply (login_match_is_classified m u c b Hm).
    destruct (Login.classify m u c); try discriminate E. reflexivity.
Qed.

Lemma login_classify_payload (m : Login.AuthMode) (u c : string) :
  (forall x, Login.classify m u c = Login.Username x ->
             u = "" /\ Login.usernameCandidate c = Some x)
  /\ (forall n, Login.classify m u c = Login.PinDigits n ->
                n = Login.spokenDigits c
                /\ 0 < String.length (Login.spokenDigits c)).
Proof.
  unfold Login.classify. split.
  - intros x. split_login; try discriminate.
    intros E. inversion E; subst. split; [| reflexivity].
    apply String.eqb_eq. assumption.
  - intros n. split_login; try discriminate.
    all: intros E; inversion E; subst; split; [reflexivity |];
      apply Nat.ltb_lt; assumption.
Qed.

(** C7, amended.  Both screens test their predicates in the order of the
    source and the first one that holds decides.  On the dashboard the order
    is teach, exam, level, schemes, jobs, history, home, repeat, logout, help;
    on the login screen it is login, register, help, back, and then, in login
    and register mode only, clear, submit, username capture, PIN digits.  A
    command that satisfies a predicate never selects a branch that comes later
    in this order, and the branch selected is one whose predicate holds.  On
    both screens the branch selected is exactly the first one in this order
    whose predicate holds, and no branch is selected exactly when no predicate
    holds; the username branch carries the cleaned-up name and the PIN branch
    the digits extracted from the command. *)
Theorem dispatch_source_order :
  (forall c i j,
      Dashboard.matches i c = true ->
      Dashboard.rank i < Dashboard.rank j ->
      Dashboard.classify c <> j)
  /\ (forall c,
         Dashboard.classify c = Dashboard.Unrecognized
         \/ Dashboard.matches (Dashboard.classify c) c = true)
  /\ (forall m u c b j b',
         Login.matches m u b c = true ->
         Login.branch j = Some b' ->
         Login.rank b < Login.rank b' ->
         Login.classify m u c <> j)
  /\ (forall m u c b,
         Login.branch (Login.classify m u c) = Some b ->
         Login.matches m u b c = true)
  /\ (forall c i,
         Dashboard.matches i c = true ->
         (forall j, Dashboard.rank j < Dashboard.rank i ->
                    Dashboard.matches j c = false) ->
         Dashboard.classify c = i)
  /\ (forall c,
         Dashboard.classify c = Dashboard.Unrecognized
         <-> forall i, Dashboard.matches i c = false)
  /\ (forall m u c b,
         Login.matches m u b c = true ->
         (forall b', Login.rank b' < Login.rank b ->
                     Login.matches m u b' c = false) ->
         Login.branch (Login.classify m u c) = Some b)
  /\ (forall m u c,
         Login.classify m u c = Login.NoMatch
         <-> forall b, Login.matches m u b c = false)
  /\ (forall m u c x,
         Login.classify m u c = Login.Username x ->
         u = "" /\ Login.usernameCandidate c = Some x)
  /\ (forall m u c n,
         Login.classify m u c = Login.PinDigits n ->
         n = Login.spokenDigits c).
Proof.
  split; [| split; [| split; [| split; [| split; [| split;
    [| split; [| split; [| split]]]]]]]].
  - intros c i j Hm Hr E. subst j.
    pose proof (dashboard_classify_rank c i Hm). lia.
  - apply dashboard_classify_sound.
  - intros m u c b j b' Hm Hb Hr E. subst j.
    pose proof (login_classify_rank m u c b b' Hm Hb). lia.
  - apply login_classify_sound.
  - apply dashboard_first_match.
  - intros c. split; [| apply dashboard_no_match].
    intros E i. destruct (Dashboard.matches i c) eqn:Hm; [| reflexivity].
    pose proof (dashboard_classify_rank c i Hm) as Hr. rewrite E in Hr.
    destruct i; cbn in Hr; try lia. cbn in Hm. discriminate Hm.
  - apply login_first_match.
  - intros m u c. split; [| apply login_no_match].
    intros E b. destruct (Login.matches m u b c) eqn:Hm; [| reflexivity].
    exfalso. apply (login_match_is_classified m u c b Hm). exact E.
  - intros m u c x. apply login_classify_payload.
  - intros m u c n E. apply (login_classify_payload m u c). exact E.
Qed.

Lemma dispatch_source_order_witness :
  Dashboard.classify "help me prepare for exam" <> Dashboard.Help
  /\ Login.classify Login.ModeLogin "rahul" "clear one two"
     <> Login.PinDigits "12"
  /\ Login.branch (Login.classify Login.ModeLogin "rahul" "clear one two")
     = Some Login.BClear
  /\ Dashboard.classify "help me prepare for exam" = Dashboard.Exam.
Proof.
  destruct dispatch_source_order
    as (HD & _ & HL & _ & HDF & _ & HLF & _).
  split; [| split; [| split]].
  - apply (HD "help me prepare for exam" Dashboard.Exam Dashboard.Help).
    + reflexivity.
    + cbn. lia.
  - apply (HL Login.ModeLogin "rahul" "clear one two" Login.BClear
              (Login.PinDigits "12") Login.BPin).
    + reflexivity.
    + reflexivity.
    + cbn. lia.
  - apply HLF.
    + reflexivity.
    + intros b' Hb. destruct b'; cbn in Hb; try lia; reflexivity.
  - apply HDF.
    + reflexivity.
    + intros j Hj. destruct j; cbn in Hj; try lia; reflexivity.
Defined.

(** ** Unrecognized commands *)

(** C5, counterexample.  In login mode with a username already captured, the
    transcript "banana" satisfies no predicate of the effect, and yet the
    effect hands a reminder to speech output. *)
Lemma unrecognized_not_silent :
  (forall b,
      Login.matches (Login.mode (page Login.heardBanana))
                    (Login.username (page Login.heardBanana)) b
                    (Login.commandOf Login.heardBanana) = false)
  /\ spoken (fire Login.applyPage Login.voiceCommandEffect Login.heardBanana)
     = spoken Login.heardBanana ++ [Login.reminder "rahul"]
  /\ spoken (fire Login.applyPage Login.voiceCommandEffect Login.heardBanana)
     <> spoken Login.heardBanana.
Proof.
  split; [intros b; destruct b; reflexivity |].
  split; [reflexivity | discriminate].
Qed.

(** C5, amended.  A final transcript that satisfies no predicate of the
    active mode leaves the UI mode and the credential draft unchanged.  The
    dashboard requests no speech for it.  The login screen requests no speech
    for it either, except in login or register mode once a username is
    captured: there it speaks the reminder "Username is <username>. Say
    numbers for PIN, or say clear to start over." *)
Theorem unrecognized_command_frame :
  (forall w : Dashboard.World,
      (forall i, Dashboard.matches
                   i (JS.trim (JS.toLowerCase (lastResult w))) = false) ->
      let w' := fire Dashboard.applyPage Dashboard.voiceCommandEffect w in
      Dashboard.currentMode (page w') = Dashboard.currentMode (page w)
      /\ spoken w' = spoken w
      /\ timers w' = timers w)
  /\ (forall w : Login.World,
         (forall b, Login.matches (Login.mode (page w))
                                  (Login.username (page w)) b
                                  (Login.commandOf w) = false) ->
         let w' := fire Login.applyPage Login.voiceCommandEffect w in
         Login.mode (page w') = Login.mode (page w)
         /\ Login.username (page w') = Login.username (page w)
         /\ Login.pin (page w') = Login.pin (page w)
         /\ timers w' = timers w
         /\ spoken w'
            = spoken w
              ++ (if Login.hasCommand w
                     && Login.isFormMode (Login.mode (page w))
                     && negb (String.eqb (Login.username (page w)) "")
                     && synthRef w
                  then [Login.reminder (Login.username (page w))]
                  else [])).
Proof.
  split.
  - intros w H w'. subst w'.
    unfold fire, Dashboard.voiceCommandEffect.
    rewrite (dashboard_no_match _ H). clear H.
    open_world w. cbn.
    destruct (String.eqb lr ""), isMuted; cbn; auto.
  - intros w H w'. subst w'.
    unfold fire, Login.voiceCommandEffect, Login.hasCommand.
    unfold Login.commandOf in H.
    rewrite (login_no_match _ _ _ H). clear H.
    open_world w. cbn.
    destruct (String.eqb lr "" || String.eqb (JS.trim lr) "")%bool;
      cbn; [rewrite app_nil_r; auto |].
    destruct (Login.isFormMode mode), (String.eqb username "");
      split_flags; rewrite ?app_nil_r; auto.
Qed.

Lemma unrecognized_command_frame_witness :
  spoken (fire Login.applyPage Login.voiceCommandEffect Login.heardBanana)
  = spoken Login.heardBanana ++ [Login.reminder "rahul"].
Proof.
  destruct unrecognized_command_frame as [_ HL].
  apply (HL Login.heardBanana).
  intros b; destruct b; reflexivity.
Defined.

(** ** The credential draft under mode changes and voice input *)

(** C9. [handleModeChange] always sets the mode and clears the error message;
    it empties username and pin exactly when the target mode is welcome, and
    leaves both as they were when the target is login, register or help. *)
Theorem mode_change_resets_draft_on_welcome_only :
  forall (w : Login.World) (newMode : Login.AuthMode),
    let w' := fire Login.applyPage (Login.handleModeChange newMode) w in
    Login.mode (page w') = newMode
    /\ Login.error (page w') = ""
    /\ match newMode with
       | Login.ModeWelcome =>
           Login.username (page w') = "" /\ Login.pin (page w') = ""
       | _ =>
           Login.username (page w') = Login.username (page w)
           /\ Login.pin (page w') = Login.pin (page w)
       end.
Proof.
  intros w newMode w'. subst w'. unfold fire, Login.handleModeChange.
  open_world w. destruct newMode; split_flags; auto.
Qed.

Lemma login_classify_username (m : Login.AuthMode) (u c x : string) :
  Login.classify m u c = Login.Username x -> u = "".
Proof.
  unfold Login.classify. split_login; try discriminate.
  intros _. apply String.eqb_eq. assumption.
Qed.

Lemma login_classify_pin (m : Login.AuthMode) (u c n : string) :
  Login.classify m u c = Login.PinDigits n -> n = Login.spokenDigits c.
Proof.
  unfold Login.classify. split_login; try discriminate.
  all: intros E; inversion E; reflexivity.
Qed.

(** C10. In login or register mode, once a username is captured, a final
    utterance never replaces it: the username stays as it is or becomes
    empty, and it becomes empty exactly when the utterance is a go-back
    command (transition to welcome) or a clear command ([handleClearForm]).
    No utterance is taken as a username any more, and an utterance taken as
    digits leaves the username alone and appends its digits to the pin, cut
    to six characters. *)
Theorem username_written_once_by_voice :
  forall w : Login.World,
    Login.isFormMode (Login.mode (page w)) = true ->
    Login.username (page w) <> "" ->
    let i := Login.classify (Login.mode (page w)) (Login.username (page w))
                            (Login.commandOf w) in
    let w' := fire Login.applyPage Login.voiceCommandEffect w in
    (Login.username (page w') = Login.username (page w)
     \/ Login.username (page w') = "")
    /\ (Login.username (page w') = ""
        <-> Login.hasCommand w = true
            /\ (i = Login.GoBack \/ i = Login.ClearForm))
    /\ (forall cleanUsername, i <> Login.Username cleanUsername)
    /\ (forall numbers,
           Login.hasCommand w = true ->
           i = Login.PinDigits numbers ->
           numbers = Login.spokenDigits (Login.commandOf w)
           /\ Login.username (page w') = Login.username (page w)
           /\ Login.pin (page w')
              = JS.slice0 6 (Login.pin (page w) +:+ numbers)).
Proof.
  intros w Hm Hu i w'. subst i w'.
  unfold fire, Login.voiceCommandEffect, Login.hasCommand, Login.commandOf.
  remember (Login.classify (Login.mode (page w)) (Login.username (page w))
                           (JS.trim (JS.toLowerCase (lastResult w)))) as i eqn:E.
  assert (NU : forall x, i <> Login.Username x).
  { intros x Ex. rewrite Ex in E. symmetry in E.
    apply login_classify_username in E. contradiction. }
  assert (PD : forall n, i = Login.PinDigits n ->
                         n = Login.spokenDigits
                               (JS.trim (JS.toLowerCase (lastResult w)))).
  { intros n En. rewrite En in E. symmetry in E.
    apply login_classify_pin in E. exact E. }
  clear E. open_world w. cbn in Hm, Hu, PD |- *.
  destruct (String.eqb lr "" || String.eqb (JS.trim lr) "")%bool; cbn.
  - repeat split; auto; try (intros; intuition congruence).
  - destruct i; try (exfalso; eapply NU; reflexivity);
      open_handlers; rewrite ?Hm; split_flags;
      repeat split; auto; intros;
      try (intuition congruence);
      try match goal with
          | H : _ = Login.PinDigits _ |- _ => inversion H; subst; auto
          end.
Qed.

Lemma username_written_once_by_voice_witness :
  Login.username
    (page (fire Login.applyPage Login.voiceCommandEffect
                (fire Login.applyPage
                      (Login.recognitionOnResult "three four" true)
                      (Login.withDraft Login.ModeLogin "rahul" "12"))))
  = "rahul"
  /\ Login.pin
       (page (fire Login.applyPage Login.voiceCommandEffect
                   (fire Login.applyPage
                         (Login.recognitionOnResult "three four" true)
                         (Login.withDraft Login.ModeLogin "rahul" "12"))))
     = "1234".
Proof.
  pose proof
       (username_written_once_by_voice
          (fire Login.applyPage (Login.recognitionOnResult "three four" true)
                (Login.withDraft Login.ModeLogin "rahul" "12")))
    as H.
  cbv zeta in H.
  destruct H as (_ & _ & _ & Hpin); [reflexivity | discriminate |].
  destruct (Hpin "34") as (_ & Hu & Hp); [reflexivity | reflexivity |].
  split; [exact Hu | exact Hp].
Defined.

(** ** Capture and output *)

(** C1, evaluated on the code.  Capture and output can be flagged active at
    the same instant with either controller.  With the shared hook, [speak]
    never stops capture: a [speak] call, or a recognized command that is
    answered by speech, while capture is running leaves [isListening] set
    when the utterance starts.  With the login screen's controller,
    [startListening] does not cancel output, and [speak] only requests the
    end of capture, so [isListening] is still set when the utterance starts
    before the recognizer has reported its end. *)
Theorem capture_and_output_overlap :
  option_map (fun w => (isListening w, isSpeaking w))
             (Dashboard.steps
                [Dashboard.CallStartListening; Dashboard.RecOnStart;
                 Dashboard.CallSpeak "hello"; Dashboard.UttOnStart]
                Dashboard.initial)
  = Some (true, true)
  /\ option_map (fun w => (isListening w, isSpeaking w))
                (Dashboard.steps
                   [Dashboard.CallStartListening; Dashboard.RecOnStart;
                    Dashboard.RecOnResult [(true, "teach me")];
                    Dashboard.UttOnStart]
                   Dashboard.initial)
     = Some (true, true)
  /\ option_map (fun w => (isListening w, isSpeaking w))
                (Login.steps
                   [Login.CallSpeak "hello"; Login.UttOnStart;
                    Login.CallStartListening]
                   Login.initial)
     = Some (true, true)
  /\ option_map (fun w => (isListening w, isSpeaking w))
                (Login.steps
                   [Login.CallStartListening; Login.RecOnResult "help" true;
                    Login.UttOnStart]
                   Login.initial)
     = Some (true, true).
Proof.
  split; [| split; [| split]]; vm_compute; reflexivity.
Qed.

(** ** Capture errors *)

(** C8, counterexample.  On the login screen a capture error that is not
    transient does not stop the capturing state: after "network" is reported
    while capture is running, [isListening] is still set and the auto-restart
    flag is still armed. *)
Lemma capture_error_keeps_listening_on_login :
  option_map (fun w => (isListening w, Login.shouldRestart (page w)))
             (Login.steps [Login.CallStartListening; Login.RecOnError "network"]
                          Login.initial)
  = Some (true, true)
  /\ "network" <> "no-speech"
  /\ "network" <> "aborted".
Proof.
  split; [vm_compute; reflexivity | split; discriminate].
Qed.

(** C8, amended.  In the shared hook every capture error clears the
    capturing flag; "no-speech" and "aborted" are written to the log as
    information only, every other code is written as an error as well.  In
    the login screen's controller every error code is written to the log as
    an error and neither the capturing flag nor the auto-restart flag
    changes.  In both, the handler changes nothing else (no tone, no
    speech, no transcript, no stored data, no navigation): no error reaches
    the screen.  On the login screen it is the capture-end callback that clears
    the capturing flag, and it schedules a restart 100 ms later when the
    auto-restart flag is armed and nothing is being spoken. *)
Theorem capture_error_handlers :
  (forall (w : Dashboard.World) (code : string),
      let w' := fire Dashboard.applyPage (Hook.recognitionOnError code) w in
      isListening w' = false
      /\ console w'
         = console w
           ++ LogInfo ("Speech recognition error: " +:+ code)
              :: (if (String.eqb code "no-speech" || String.eqb code "aborted")%bool
                  then []
                  else [LogError ("Speech recognition error: " +:+ code)])
      /\ page w' = page w
      /\ isSpeaking w' = isSpeaking w
      /\ lastResult w' = lastResult w
      /\ recStarted w' = recStarted w
      /\ spoken w' = spoken w
      /\ timers w' = timers w
      /\ tones w' = tones w
      /\ transcript w' = transcript w
      /\ storage w' = storage w
      /\ href w' = href w)
  /\ (forall (w : Login.World) (code : string),
         let w' := fire Login.applyPage (Login.recognitionOnError code) w in
         isListening w' = isListening w
         /\ console w'
            = console w ++ [LogError ("Speech recognition error: " +:+ code)]
         /\ page w' = page w
         /\ isSpeaking w' = isSpeaking w
         /\ lastResult w' = lastResult w
         /\ recStarted w' = recStarted w
         /\ spoken w' = spoken w
         /\ timers w' = timers w
         /\ tones w' = tones w
         /\ transcript w' = transcript w
         /\ storage w' = storage w
         /\ href w' = href w)
  /\ (forall w : Login.World,
         let w' := fire Login.applyPage Login.recognitionOnEnd w in
         isListening w' = false
         /\ timers w'
            = timers w
              ++ (if Login.shouldRestart (page w)
                     && negb (synthRef w && synthSpeaking w)
                  then [(now w + 100, Login.TaskRestartAfterEnd)]
                  else [])).
Proof.
  split; [| split].
  - intros w code w'; subst w'; unfold fire.
    unfold Hook.recognitionOnError. open_world w.
    destruct (String.eqb code "no-speech"), (String.eqb code "aborted");
      cbn; rewrite <- ?app_assoc; repeat split; reflexivity.
  - intros w code w'; subst w'; unfold fire.
    unfold Login.recognitionOnError. open_world w. cbn.
    repeat split; reflexivity.
  - intros w w'; subst w'; unfold fire, Login.recognitionOnEnd, synthSpeaking.
    open_world w. cbn.
    destruct shouldRestart, sr, sy; cbn; rewrite ?app_nil_r; split; reflexivity.
Qed.

(** ** Time *)

Section SingleTimer.

Context {Page PageAct Task : Type}.
Variable applyPage : PageAct -> Page -> Page.
Variable runTask : Task -> World Page Task -> list (Action PageAct Task).

Lemma advance_succ (n : nat) (w : World Page Task) :
  advance applyPage runTask (S n) w
  = tick applyPage runTask (advance applyPage runTask n w).
Proof. reflexivity. Qed.

Lemma advance_add (n m : nat) (w : World Page Task) :
  advance applyPage runTask (n + m) w
  = advance applyPage runTask n (advance applyPage runTask m w).
Proof.
  induction n as [| n IH]; [reflexivity |].
  change (S n + m) with (S (n + m)). rewrite !advance_succ, IH. reflexivity.
Qed.

(** While the only pending callback is not due, time passing changes nothing
    but the clock. *)
Lemma advance_wait (t : Task) (d n : nat) (w : World Page Task) :
  timers w = [(now w + d, t)] ->
  n < d ->
  advance applyPage runTask n w = atTime (now w + n) [(now w + d, t)] w.
Proof.
  intros Ht. induction n as [| n IH]; intros Hn.
  - destruct w as [li sp tr lr rr sr rs sy pg spk tn co st hr nw tm]; cbn in *. rewrite Nat.add_0_r. subst. reflexivity.
  - rewrite advance_succ, IH by lia.
    destruct w as [li sp tr lr rr sr rs sy pg spk tn co st hr nw tm]; cbn in *. unfold isDue; cbn.
    replace (nw + d <=? S (nw + n))%nat with false
      by (symmetry; apply Nat.leb_gt; lia).
    cbn. rewrite Nat.add_succ_r. reflexivity.
Qed.

(** When the only pending callback falls due, it runs on the state of that
    moment. *)
Lemma advance_fire (t : Task) (d : nat) (w : World Page Task) :
  timers w = [(now w + d, t)] ->
  0 < d ->
  advance applyPage runTask d w
  = fire applyPage (runTask t) (atTime (now w + d) [] w).
Proof.
  intros Ht Hd. destruct d as [| d]; [lia |].
  rewrite advance_succ, (advance_wait t (S d) d w Ht) by lia.
  destruct w as [li sp tr lr rr sr rs sy pg spk tn co st hr nw tm]; cbn in *. unfold isDue; cbn.
  replace (nw + S d <=? S (nw + d))%nat with true
    by (symmetry; apply Nat.leb_le; lia).
  cbn. rewrite Nat.add_succ_r. reflexivity.
Qed.

End SingleTimer.

(** ** Restart of capture after speech *)

(** C2, counterexample.  Capture runs, [speak] is called and the recognizer
    reports its end, the utterance starts, [stopListening] is called while it
    is being spoken, the utterance ends: capture is off and 50 ms later it is
    on again, the explicit stop notwithstanding. *)
Lemma explicit_stop_does_not_prevent_restart :
  option_map (fun w => (isListening w, recStarted w))
             (Login.steps
                [Login.CallStartListening; Login.CallSpeak "hello";
                 Login.RecOnEnd; Login.UttOnStart; Login.CallStopListening;
                 Login.UttOnEnd]
                Login.initial)
  = Some (false, false)
  /\ option_map (fun w => (isListening w, recStarted w))
                (Login.steps
                   [Login.CallStartListening; Login.CallSpeak "hello";
                    Login.RecOnEnd; Login.UttOnStart; Login.CallStopListening;
                    Login.UttOnEnd; Login.Elapse 50]
                   Login.initial)
     = Some (true, true).
Proof.
  split; vm_compute; reflexivity.
Qed.

(** C2, amended.  On the login screen, when an utterance ends the controller
    clears the speaking flag, arms the auto-restart flag whatever its value
    was (so also after an explicit [stopListening] during the utterance) and
    schedules a capture start 50 ms later.  That start sets the capturing flag
    whenever the recognizer is not already started.  When nothing else is
    pending and the recognizer is idle, capture is therefore active exactly
    50 ms after the end of the utterance, and not before.  What
    [stopListening] does is disarm the flag, and a disarmed flag keeps the
    capture-end callback from scheduling a restart. *)
Theorem restart_after_speech :
  forall w : Login.World,
    recognitionRef w = true ->
    let w1 := fire Login.applyPage Login.utteranceOnEnd w in
    isSpeaking w1 = false
    /\ Login.shouldRestart (page w1) = true
    /\ timers w1 = timers w ++ [(now w + 50, Login.TaskRestartAfterSpeech)]
    /\ (forall w2 : Login.World,
           recStarted w2 = false ->
           let w3 := fire Login.applyPage
                          (Login.runTask Login.TaskRestartAfterSpeech) w2 in
           isListening w3 = true /\ recStarted w3 = true)
    /\ (timers w = [] ->
        recStarted w = false ->
        (forall n, n < 50 ->
                   isListening (advance Login.applyPage Login.runTask n w1)
                   = isListening w)
        /\ isListening (advance Login.applyPage Login.runTask 50 w1) = true
        /\ recStarted (advance Login.applyPage Login.runTask 50 w1) = true)
    /\ Login.shouldRestart (page (fire Login.applyPage Login.stopListening w))
       = false
    /\ (Login.shouldRestart (page w) = false ->
        timers (fire Login.applyPage Login.recognitionOnEnd w) = timers w).
Proof.
  intros w Hr w1.
  assert (E : w1 = run Login.applyPage
                       [SetIsSpeaking false;
                        PageDo (Login.SetShouldRestart true);
                        SetTimeout Login.TaskRestartAfterSpeech 50] w).
  { subst w1. unfold fire, Login.utteranceOnEnd. rewrite Hr. reflexivity. }
  clearbody w1.
  split; [subst w1; open_world w; reflexivity |].
  split; [subst w1; open_world w; reflexivity |].
  split; [subst w1; open_world w; reflexivity |].
  split; [| split; [| split]].
  - intros w2 H2. unfold fire. open_world w2. cbn in H2. subst.
    split; reflexivity.
  - intros Ht Hs.
    assert (T1 : timers w1 = [(now w1 + 50, Login.TaskRestartAfterSpeech)]).
    { subst w1. open_world w. cbn in *. subst. reflexivity. }
    split; [| split].
    + intros n Hn.
      rewrite (advance_wait _ _ _ 50 n w1 T1 Hn).
      subst w1. open_world w. reflexivity.
    + rewrite (advance_fire _ _ _ 50 w1 T1) by lia.
      subst w1. open_world w. cbn in *. subst. reflexivity.
    + rewrite (advance_fire _ _ _ 50 w1 T1) by lia.
      subst w1. open_world w. cbn in *. subst. reflexivity.
  - clear E. unfold fire, Login.stopListening. open_world w.
    split_flags; reflexivity.
  - clear E. intros Hs. unfold fire, Login.recognitionOnEnd. open_world w.
    cbn in Hs. subst. reflexivity.
Qed.

Lemma restart_after_speech_witness :
  isListening
    (advance Login.applyPage Login.runTask 50
             (fire Login.applyPage Login.utteranceOnEnd Login.initial))
  = true.
Proof.
  destruct (restart_after_speech Login.initial eq_refl)
    as (_ & _ & _ & _ & H & _).
  destruct (H eq_refl eq_refl) as (_ & H50 & _).
  exact H50.
Defined.

(** ** Credential submission *)

Lemma submit_test_spec (user pn : string) :
  (String.eqb user "" || (String.length pn <? 4)%nat)%bool = true
  <-> user = "" \/ String.length pn < 4.
Proof.
  rewrite orb_true_iff, String.eqb_eq, Nat.ltb_lt. reflexivity.
Qed.

(** C3.  [handleSubmit] rejects the draft exactly when the username is empty
    or the pin has fewer than four characters.  A rejected draft gets the
    error message set and spoken and the error tone played (and vice versa: the
    error tone is played only then); persistent storage, location, pending
    callbacks, mode and draft stay as they were.  An accepted draft is marked
    as processing and nothing is written yet; its continuation is scheduled
    1500 ms later and writes isLoggedIn = "true" and the submitted username to
    persistent storage, and schedules, 2500 ms later still, the navigation to
    "/dashboard".  When nothing else is pending, storage is untouched before
    1500 ms and holds both entries then, and the location is unchanged before
    4000 ms and is "/dashboard" then. *)
Theorem submit_contract :
  forall w : Login.World,
    let invalid :=
      Login.username (page w) = "" \/ String.length (Login.pin (page w)) < 4 in
    let w1 := fire Login.applyPage Login.handleSubmit w in
    let resume :=
      Login.TaskSubmitResume (Login.username (page w)) (isListening w) in
    (tones w1 = tones w ++ [ToneError] <-> invalid)
    /\ (invalid ->
        Login.error (page w1) = Login.validationError
        /\ spoken w1
           = spoken w ++ (if synthRef w then [Login.validationSpeech] else [])
        /\ storage w1 = storage w
        /\ href w1 = href w
        /\ timers w1 = timers w
        /\ Login.mode (page w1) = Login.mode (page w)
        /\ Login.username (page w1) = Login.username (page w)
        /\ Login.pin (page w1) = Login.pin (page w)
        /\ Login.isProcessing (page w1) = Login.isProcessing (page w))
    /\ (~ invalid ->
        Login.isProcessing (page w1) = true
        /\ Login.mode (page w1) = Login.mode (page w)
        /\ storage w1 = storage w
        /\ href w1 = href w
        /\ timers w1 = timers w ++ [(now w + 1500, resume)]
        /\ (forall w2 : Login.World,
               let w3 := fire Login.applyPage (Login.runTask resume) w2 in
               storage w3
               = <["username" := Login.username (page w)]>
                   (<["isLoggedIn" := "true"]> (storage w2))
               /\ href w3 = href w2
               /\ timers w3 = timers w2 ++ [(now w2 + 2500, Login.TaskGoDashboard)])
        /\ (forall w4 : Login.World,
               let w5 := fire Login.applyPage
                              (Login.runTask Login.TaskGoDashboard) w4 in
               href w5 = "/dashboard" /\ storage w5 = storage w4)
        /\ (timers w = [] ->
            (forall n, n < 1500 ->
                       storage (advance Login.applyPage Login.runTask n w1)
                       = storage w)
            /\ storage (advance Login.applyPage Login.runTask 1500 w1)
                 !! "isLoggedIn" = Some "true"
            /\ storage (advance Login.applyPage Login.runTask 1500 w1)
                 !! "username" = Some (Login.username (page w))
            /\ (forall n, n < 2500 ->
                          href (advance Login.applyPage Login.runTask (n + 1500) w1)
                          = href w)
            /\ href (advance Login.applyPage Login.runTask (2500 + 1500) w1)
               = "/dashboard")).
Proof.
  intros w invalid w1 resume.
  pose proof (submit_test_spec (Login.username (page w)) (Login.pin (page w)))
    as Spec.
  fold invalid in Spec.
  destruct (String.eqb (Login.username (page w)) ""
            || (String.length (Login.pin (page w)) <? 4)%nat)%bool eqn:T.
  - (* rejected *)
    assert (Hi : invalid) by (apply Spec; reflexivity).
    assert (E : w1 = run Login.applyPage
                         ([PageDo (Login.SetError Login.validationError)]
                          ++ Login.speak (isListening w) Login.validationSpeech w
                          ++ [PlayTone ToneError]) w).
    { subst w1. unfold fire, Login.handleSubmit. rewrite T. reflexivity. }
    clearbody w1. clear T Spec. subst w1.
    split; [split; [intros _; exact Hi | intros _] |];
      [| split; [intros _ | intros N; contradiction]];
      open_world w; split_flags; rewrite ?app_nil_r; repeat split; reflexivity.
  - (* accepted *)
    assert (Hv : ~ invalid) by (intros Hi; apply Spec in Hi; discriminate).
    assert (E : w1 = run Login.applyPage
                         ([PageDo (Login.SetIsProcessing true)]
                          ++ Login.speak (isListening w) "Processing your request." w
                          ++ [SetTimeout resume 1500]) w).
    { subst w1 resume. unfold fire, Login.handleSubmit. rewrite T. reflexivity. }
    clearbody w1. clear T Spec.
    split; [split; [| intros Hi; contradiction] |].
    { intros Ht. exfalso. subst w1. open_world w. revert Ht. split_flags;
        intros Ht; apply (f_equal (@List.length Tone)) in Ht;
        rewrite ?length_app in Ht; cbn in Ht; lia. }
    split; [intros Hi; contradiction | intros _].
    split; [subst w1; open_world w; split_flags; reflexivity |].
    split; [subst w1; open_world w; split_flags; reflexivity |].
    split; [subst w1; open_world w; split_flags; reflexivity |].
    split; [subst w1; open_world w; split_flags; reflexivity |].
    split; [subst w1; open_world w; split_flags; reflexivity |].
    split.
    { intros w2 w3. subst w3 resume. unfold fire. open_world w2.
      split_flags; repeat split; reflexivity. }
    split.
    { intros w4 w5. subst w5. unfold fire. open_world w4.
      split; reflexivity. }
    intros Ht.
    assert (T1 : timers w1 = [(now w1 + 1500, resume)]).
    { subst w1. open_world w. cbn in Ht. subst tm. split_flags; reflexivity. }
    pose (w2 := fire Login.applyPage (Login.runTask resume)
                     (atTime (now w1 + 1500) [] w1)).
    assert (A1 : advance Login.applyPage Login.runTask 1500 w1 = w2).
    { apply advance_fire; [exact T1 | lia]. }
    assert (T2 : timers w2 = [(now w2 + 2500, Login.TaskGoDashboard)]).
    { subst w2 w1 resume. unfold fire. open_world w.
      split_flags; reflexivity. }
    split; [| split; [| split; [| split]]].
    + intros n Hn. rewrite (advance_wait _ _ _ 1500 n w1 T1 Hn).
      subst w1. open_world w. split_flags; reflexivity.
    + rewrite A1. subst w2 w1 resume. unfold fire. open_world w.
      split_flags; rewrite lookup_insert_ne by discriminate;
        apply lookup_insert_eq.
    + rewrite A1. subst w2 w1 resume. unfold fire. open_world w.
      split_flags; apply lookup_insert_eq.
    + intros n Hn. rewrite advance_add, A1.
      rewrite (advance_wait _ _ _ 2500 n w2 T2 Hn).
      subst w2 w1 resume. unfold fire. open_world w.
      split_flags; reflexivity.
    + rewrite advance_add, A1.
      rewrite (advance_fire _ _ _ 2500 w2 T2) by lia.
      subst w2 w1 resume. unfold fire. open_world w.
      split_flags; reflexivity.
Qed.

Lemma submit_contract_witness :
  Login.error
    (page (fire Login.applyPage Login.handleSubmit
                (Login.withDraft Login.ModeLogin "" "123")))
  = Login.validationError
  /\ storage
       (advance Login.applyPage Login.runTask 1500
                (fire Login.applyPage Login.handleSubmit
                      (Login.withDraft Login.ModeLogin "ana" "4821")))
       !! "username" = Some "ana"
  /\ href
       (advance Login.applyPage Login.runTask (2500 + 1500)
                (fire Login.applyPage Login.handleSubmit
                      (Login.withDraft Login.ModeLogin "ana" "4821")))
     = "/dashboard".
Proof.
  split.
  - pose proof (submit_contract (Login.withDraft Login.ModeLogin "" "123")) as H.
    cbv zeta in H. destruct H as (_ & Hbad & _).
    apply Hbad. left. reflexivity.
  - pose proof (submit_contract (Login.withDraft Login.ModeLogin "ana" "4821"))
      as H.
    cbv zeta in H. destruct H as (_ & _ & Hok).
    assert (V : ~ (Login.username (page (Login.withDraft Login.ModeLogin "ana" "4821")) = ""
                   \/ String.length
                        (Login.pin (page (Login.withDraft Login.ModeLogin "ana" "4821")))
                      < 4)).
    { intros [E | L]; [discriminate E | cbn in L; lia]. }
    destruct (Hok V) as (_ & _ & _ & _ & _ & _ & _ & Htl).
    destruct (Htl eq_refl) as (_ & _ & Hu & _ & Hnav).
    split; [exact Hu | exact Hnav].
Defined.

(** ** Credential accumulation *)





Lemma length_append (a b : string) :
  String.length (a +:+ b) = String.length a + String.length b.
Proof.
  induction a as [| c a IH]; simpl; [reflexivity |]. rewrite IH. reflexivity.
Qed.















(** * Further properties of the code *)

Arguments Dashboard.classify : simpl never.
Arguments Login.classify : simpl never.

(** Opens a voice-command effect on a symbolic world and splits on the branch
    it selects. *)
Ltac open_effect w :=
  unfold fire, Login.voiceCommandEffect, Dashboard.voiceCommandEffect;
  open_world w; cbn;
  repeat match goal with
         | |- context [Login.classify ?m ?u ?c] =>
             generalize (Login.classify m u c); intros ?i
         | |- context [Dashboard.classify ?c] =>
             generalize (Dashboard.classify c); intros ?i
         end.

(** ** The final transcript is consumed once *)

Lemma login_effect_blank (w : Login.World) :
  Login.hasCommand w = false ->
  fire Login.applyPage Login.voiceCommandEffect w = w.
Proof.
  unfold Login.hasCommand, fire, Login.voiceCommandEffect. intros H.
  apply negb_false_iff in H. rewrite H. reflexivity.
Qed.

Lemma login_effect_clears (w : Login.World) :
  Login.hasCommand w = true ->
  lastResult (fire Login.applyPage Login.voiceCommandEffect w) = ""
  /\ transcript (fire Login.applyPage Login.voiceCommandEffect w) = "".
Proof.
  unfold Login.hasCommand. intros H. apply negb_true_iff in H. revert H.
  open_effect w. intros G. rewrite G.
  destruct i; split_flags; auto.
Qed.

(** On the login screen every final transcript that is not blank is cleared
    by the effect that processes it, whatever branch it takes, so that it is
    processed once: running the effect again changes nothing.  A blank
    transcript is not processed at all. *)
Theorem login_effect_consumes_transcript :
  forall w : Login.World,
    let w' := fire Login.applyPage Login.voiceCommandEffect w in
    (Login.hasCommand w = true -> lastResult w' = "" /\ transcript w' = "")
    /\ (Login.hasCommand w = false -> w' = w)
    /\ fire Login.applyPage Login.voiceCommandEffect w' = w'.
Proof.
  intros w w'. subst w'.
  split; [apply login_effect_clears |].
  split; [apply login_effect_blank |].
  destruct (Login.hasCommand w) eqn:H.
  - apply login_effect_blank. unfold Login.hasCommand.
    destruct (login_effect_clears w H) as [E _]. rewrite E. reflexivity.
  - rewrite (login_effect_blank w H). apply login_effect_blank. exact H.
Qed.

Lemma login_effect_consumes_transcript_witness :
  lastResult (fire Login.applyPage Login.voiceCommandEffect Login.heardBanana)
  = "".
Proof.
  destruct (login_effect_consumes_transcript Login.heardBanana) as (H & _).
  destruct (H eq_refl) as [Hl _]. exact Hl.
Defined.

Lemma dashboard_effect_empty (w : Dashboard.World) :
  lastResult w = "" ->
  fire Dashboard.applyPage Dashboard.voiceCommandEffect w = w.
Proof.
  unfold fire, Dashboard.voiceCommandEffect. intros H. rewrite H. reflexivity.
Qed.

Lemma dashboard_effect_clears (w : Dashboard.World) :
  lastResult w <> "" ->
  lastResult (fire Dashboard.applyPage Dashboard.voiceCommandEffect w) = ""
  /\ transcript (fire Dashboard.applyPage Dashboard.voiceCommandEffect w) = "".
Proof.
  revert w. intros w. open_effect w. intros H.
  destruct (String.eqb_spec lr "") as [E | E]; [contradiction |].
  destruct i, isMuted; cbn; unfold Dashboard.speakModeInstructions;
    split_flags; auto.
Qed.

(** On the dashboard every non-empty final transcript is cleared by the
    effect that processes it, recognized or not, and running the effect again
    changes nothing. *)
Theorem dashboard_effect_consumes_transcript :
  forall w : Dashboard.World,
    let w' := fire Dashboard.applyPage Dashboard.voiceCommandEffect w in
    lastResult w' = ""
    /\ (lastResult w <> "" -> transcript w' = "")
    /\ (lastResult w = "" -> w' = w)
    /\ fire Dashboard.applyPage Dashboard.voiceCommandEffect w' = w'.
Proof.
  intros w w'. subst w'.
  assert (L : lastResult
                (fire Dashboard.applyPage Dashboard.voiceCommandEffect w) = "").
  { destruct (String.eqb_spec (lastResult w) "") as [E | E].
    - rewrite (dashboard_effect_empty w E). exact E.
    - apply (dashboard_effect_clears w E). }
  split; [exact L |].
  split; [intros N; apply (dashboard_effect_clears w N) |].
  split; [apply dashboard_effect_empty |].
  apply dashboard_effect_empty. exact L.
Qed.

Lemma dashboard_effect_consumes_transcript_witness :
  transcript
    (fire Dashboard.applyPage Dashboard.voiceCommandEffect
          (fire Dashboard.applyPage
                (Hook.recognitionOnResult [(true, "teach me")])
                Dashboard.initial))
  = "".
Proof.
  pose proof
       (dashboard_effect_consumes_transcript
          (fire Dashboard.applyPage
                (Hook.recognitionOnResult [(true, "teach me")])
                Dashboard.initial)) as H.
  cbv zeta in H. destruct H as (_ & H & _).
  apply H. discriminate.
Defined.

(** ** The mute switch *)

(** The mute switch of the dashboard only suppresses the notification tone of
    the voice-command effect: with and without it a command leads to the same
    mode, the same speech, the same scheduled callbacks and a cleared
    transcript. *)
Theorem mute_silences_only_the_tone :
  forall w : Dashboard.World,
    let quiet :=
      fire Dashboard.applyPage Dashboard.voiceCommandEffect
           (fire Dashboard.applyPage
                 (fun _ => [PageDo (Dashboard.SetIsMuted true)]) w) in
    let loud :=
      fire Dashboard.applyPage Dashboard.voiceCommandEffect
           (fire Dashboard.applyPage
                 (fun _ => [PageDo (Dashboard.SetIsMuted false)]) w) in
    Dashboard.currentMode (page quiet) = Dashboard.currentMode (page loud)
    /\ spoken quiet = spoken loud
    /\ timers quiet = timers loud
    /\ lastResult quiet = lastResult loud
    /\ tones quiet = tones w
    /\ tones loud
       = tones w ++ (if String.eqb (lastResult w) "" then [] else [ToneNotification]).
Proof.
  intros w quiet loud. subst quiet loud. open_effect w.
  destruct (String.eqb lr ""); cbn; [rewrite app_nil_r; auto 7 |].
  destruct i; cbn; unfold Dashboard.speakModeInstructions; split_flags;
    auto 7.
Qed.

(** ** The draft outside the form modes *)

Lemma login_classify_outside_form (m : Login.AuthMode) (u c : string) :
  Login.isFormMode m = false ->
  match Login.classify m u c with
  | Login.GoLogin | Login.GoRegister | Login.GoHelp | Login.GoBack
  | Login.NoMatch => True
  | _ => False
  end.
Proof.
  intros H. unfold Login.classify. rewrite H. split_chain; exact I.
Qed.

(** In welcome and help mode no utterance is taken as a username or as pin
    digits, and the clear and submit commands are not available: an utterance
    leaves the draft as it is, or (go back) empties it on the way to the
    welcome mode. *)
Theorem draft_not_dictated_outside_form_modes :
  forall w : Login.World,
    Login.isFormMode (Login.mode (page w)) = false ->
    let w' := fire Login.applyPage Login.voiceCommandEffect w in
    (Login.username (page w') = Login.username (page w)
     /\ Login.pin (page w') = Login.pin (page w))
    \/ (Login.username (page w') = "" /\ Login.pin (page w') = ""
        /\ Login.mode (page w') = Login.ModeWelcome).
Proof.
  intros w Hm w'. subst w'.
  pose proof (login_classify_outside_form
                (Login.mode (page w)) (Login.username (page w))
                (JS.trim (JS.toLowerCase (lastResult w))) Hm) as Hc.
  revert Hm Hc. open_effect w. intros Hm Hc.
  destruct (String.eqb lr "" || String.eqb (JS.trim lr) "")%bool; cbn;
    [auto |].
  destruct i; try contradiction; split_flags; auto.
Qed.

Lemma draft_not_dictated_outside_form_modes_witness :
  Login.username
    (page (fire Login.applyPage Login.voiceCommandEffect
                (fire Login.applyPage
                      (Login.recognitionOnResult "rahul" true) Login.initial)))
  = "".
Proof.
  pose proof
       (draft_not_dictated_outside_form_modes
          (fire Login.applyPage (Login.recognitionOnResult "rahul" true)
                Login.initial) eq_refl) as H.
  cbv zeta in H. destruct H as [[Hu _] | [Hu _]]; exact Hu.
Defined.

(** ** Results of capture *)

Lemma trimStart_shape (s : string) :
  JS.trimStart s = ""
  \/ exists c t, JS.trimStart s = String c t /\ JS.isSpace c = false.
Proof.
  induction s as [| c s IH]; cbn; [left; reflexivity |].
  destruct (JS.isSpace c) eqn:E; [exact IH |].
  right. exists c, s. split; [reflexivity | exact E].
Qed.

Lemma trimEnd_idempotent (s : string) :
  JS.trimEnd (JS.trimEnd s) = JS.trimEnd s.
Proof.
  induction s as [| c s IH]; [reflexivity |].
  cbn [JS.trimEnd]. destruct (JS.trimEnd s) as [| d r] eqn:E.
  - destruct (JS.isSpace c) eqn:Ec; cbn; [reflexivity |].
    rewrite Ec. reflexivity.
  - cbn [JS.trimEnd] in IH |- *. rewrite IH. reflexivity.
Qed.

Lemma trimEnd_keeps_head (c : ascii) (t : string) :
  JS.isSpace c = false ->
  exists r, JS.trimEnd (String c t) = String c r.
Proof.
  intros Ec. cbn [JS.trimEnd]. destruct (JS.trimEnd t) as [| d r].
  - rewrite Ec. exists "". reflexivity.
  - exists (String d r). reflexivity.
Qed.

Lemma trim_idempotent (s : string) : JS.trim (JS.trim s) = JS.trim s.
Proof.
  unfold JS.trim.
  destruct (trimStart_shape s) as [E | (c & t & E & Ec)]; rewrite E.
  - reflexivity.
  - destruct (trimEnd_keeps_head c t Ec) as [r Er].
    replace (JS.trimStart (JS.trimEnd (String c t)))
      with (JS.trimEnd (String c t))
      by (rewrite Er; cbn; rewrite Ec; reflexivity).
    apply trimEnd_idempotent.
Qed.

Lemma final_of_interim (results : list (bool * string)) (acc : string) :
  forallb (fun r : bool * string => negb (fst r)) results = true ->
  fold_left (fun acc (r : bool * string) =>
               if fst r then acc +:+ snd r else acc) results acc
  = acc.
Proof.
  revert acc. induction results as [| [f t] rs IH]; intros acc H;
    [reflexivity |].
  cbn in H |- *. apply andb_prop in H. destruct H as [Hf Hr].
  destruct f; [discriminate |]. apply IH. exact Hr.
Qed.

(** The shared hook stores a final transcript without the white space around
    it: whenever [recognition.onresult] changes [lastResult], the new value is
    also the displayed transcript and trimming it again changes nothing. *)
Theorem hook_final_result_is_trimmed :
  forall (w : Dashboard.World) (results : list (bool * string)),
    let w' := fire Dashboard.applyPage (Hook.recognitionOnResult results) w in
    lastResult w' = lastResult w
    \/ (lastResult w' = transcript w'
        /\ JS.trim (lastResult w') = lastResult w').
Proof.
  intros w results w'. subst w'. unfold fire, Hook.recognitionOnResult.
  open_world w.
  match goal with
  | |- context [if negb (String.eqb ?f "") then _ else _] =>
      destruct (String.eqb f "")
  end; cbn.
  - match goal with
    | |- context [if negb (String.eqb ?f "") then _ else _] =>
        destruct (String.eqb f "")
    end; cbn; left; reflexivity.
  - right. split; [reflexivity | apply trim_idempotent].
Qed.

(** Interim results never trigger a command.  On the dashboard an event
    without a final part leaves [lastResult] empty, and mode, speech and
    pending callbacks as they were; on the login screen an interim result
    leaves the mode, the draft and the speech as they were. *)
Theorem interim_results_trigger_nothing :
  (forall (w w' : Dashboard.World) (results : list (bool * string)),
      forallb (fun r : bool * string => negb (fst r)) results = true ->
      lastResult w = "" ->
      Dashboard.step (Dashboard.RecOnResult results) w = Some w' ->
      lastResult w' = "" /\ page w' = page w /\ spoken w' = spoken w
      /\ tones w' = tones w /\ timers w' = timers w)
  /\ (forall (w w' : Login.World) (transcriptText : string),
         Login.hasCommand w = false ->
         Login.step (Login.RecOnResult transcriptText false) w = Some w' ->
         lastResult w' = lastResult w /\ page w' = page w
         /\ spoken w' = spoken w /\ tones w' = tones w
         /\ timers w' = timers w /\ transcript w' = transcriptText).
Proof.
  split.
  - intros w w' results Hi Hl H.
    unfold Dashboard.step, Dashboard.handle, Dashboard.guard in H.
    destruct (recStarted w); [| discriminate].
    inversion H; subst; clear H.
    assert (E : lastResult (fire Dashboard.applyPage
                                 (Hook.recognitionOnResult results) w) = "").
    { unfold fire, Hook.recognitionOnResult.
      rewrite (final_of_interim results "" Hi). cbn.
      match goal with
      | |- context [if negb (String.eqb ?f "") then _ else _] =>
          destruct (String.eqb f "")
      end; cbn; open_world w; exact Hl. }
    rewrite (dashboard_effect_empty _ E). split; [exact E |].
    unfold fire, Hook.recognitionOnResult.
    rewrite (final_of_interim results "" Hi). cbn.
    match goal with
    | |- context [if negb (String.eqb ?f "") then _ else _] =>
        destruct (String.eqb f "")
    end; cbn; open_world w; repeat split; reflexivity.
  - intros w w' t Hc H. unfold Login.step, Login.handle, Login.guard in H.
    destruct (recStarted w); [| discriminate].
    inversion H; subst; clear H.
    assert (E : Login.hasCommand
                  (fire Login.applyPage (Login.recognitionOnResult t false) w)
                = false).
    { revert Hc. unfold Login.hasCommand, fire. open_world w. cbn. auto. }
    rewrite (login_effect_blank _ E).
    unfold fire. open_world w. cbn. repeat split; reflexivity.
Qed.

Lemma interim_results_trigger_nothing_witness :
  option_map page
             (Login.step (Login.RecOnResult "log" false)
                         (fire Login.applyPage Login.startListening
                               Login.initial))
  = Some (page (fire Login.applyPage Login.startListening Login.initial)).
Proof.
  destruct interim_results_trigger_nothing as [_ HL].
  destruct (Login.step (Login.RecOnResult "log" false)
                       (fire Login.applyPage Login.startListening
                             Login.initial)) as [w' |] eqn:H.
  - destruct (HL (fire Login.applyPage Login.startListening Login.initial)
                 w' "log" eq_refl H) as (_ & Hp & _).
    cbn [option_map]. rewrite Hp. reflexivity.
  - vm_compute in H. discriminate H.
Defined.

(** ** Starting capture with the shared hook *)

(** [startListening] of the shared hook can be called any number of times: a
    second call changes nothing, also while a session is open.  When a
    recognizer exists it empties the displayed transcript and leaves a session
    open; when speech output exists it cancels it and clears the speaking
    flag.  The listening flag is not touched: it follows the recognizer's own
    [start] event. *)
Theorem hook_start_listening_idempotent :
  forall w : Dashboard.World,
    let w' := fire Dashboard.applyPage Hook.startListening w in
    fire Dashboard.applyPage Hook.startListening w' = w'
    /\ isListening w' = isListening w
    /\ lastResult w' = lastResult w
    /\ (recognitionRef w = true ->
        transcript w' = "" /\ recStarted w' = true
        /\ (synthRef w = true -> isSpeaking w' = false /\ synth w' = SynthIdle)).
Proof.
  intros w w'. subst w'. unfold fire, Hook.startListening. open_world w.
  destruct rr, sr, rs; cbn; repeat split; auto; discriminate.
Qed.

Lemma hook_start_listening_idempotent_witness :
  recStarted (fire Dashboard.applyPage Hook.startListening Dashboard.initial)
  = true.
Proof.
  destruct (hook_start_listening_idempotent Dashboard.initial)
    as (_ & _ & _ & H).
  destruct (H eq_refl) as (_ & Hr & _). exact Hr.
Defined.

(** ** Continuous capture on the login screen *)

Section IdleTimers.

Context {Page PageAct Task : Type}.
Variable applyPage : PageAct -> Page -> Page.
Variable runTask : Task -> World Page Task -> list (Action PageAct Task).

(** With no callback pending, time passing changes nothing but the clock. *)
Lemma advance_idle (n : nat) (w : World Page Task) :
  timers w = [] ->
  advance applyPage runTask n w = atTime (now w + n) [] w.
Proof.
  intros Ht. induction n as [| n IH].
  - destruct w as [li sp tr lr rr sr rs sy pg spk tn co st hr nw tm].
    cbn in *. rewrite Nat.add_0_r. subst. reflexivity.
  - rewrite advance_succ, IH.
    destruct w as [li sp tr lr rr sr rs sy pg spk tn co st hr nw tm].
    cbn. rewrite Nat.add_succ_r. reflexivity.
Qed.

End IdleTimers.

(** When the recognizer reports the end of a session on the login screen and
    nothing else is pending, the capturing flag is cleared at once.  If the
    auto-restart flag is armed and nothing is being spoken, capture is off for
    the next 100 ms and on again after exactly 100 ms; otherwise it stays off
    for good. *)
Theorem capture_end_restarts_capture :
  forall w : Login.World,
    timers w = [] ->
    let w1 := fire Login.applyPage Login.recognitionOnEnd (platRecEnded w) in
    let armed :=
      (Login.shouldRestart (page w) && negb (synthRef w && synthSpeaking w))%bool in
    isListening w1 = false
    /\ (armed = true ->
        (forall n, n < 100 ->
                   isListening (advance Login.applyPage Login.runTask n w1)
                   = false)
        /\ isListening (advance Login.applyPage Login.runTask 100 w1) = true
        /\ recStarted (advance Login.applyPage Login.runTask 100 w1) = true)
    /\ (armed = false ->
        forall n,
          isListening (advance Login.applyPage Login.runTask n w1) = false
          /\ recStarted (advance Login.applyPage Login.runTask n w1) = false).
Proof.
  intros w Ht w1 armed.
  assert (E : w1 = run Login.applyPage
                       ([SetIsListening false]
                        ++ (if armed
                            then [SetTimeout Login.TaskRestartAfterEnd 100]
                            else []))
                       (platRecEnded w)).
  { subst w1 armed. unfold fire, Login.recognitionOnEnd, synthSpeaking.
    destruct w; reflexivity. }
  clearbody w1 armed.
  split; [subst w1; open_world w; destruct armed; reflexivity |].
  split; intros Ha; subst armed.
  - assert (T1 : timers w1 = [(now w1 + 100, Login.TaskRestartAfterEnd)]).
    { subst w1. open_world w. cbn in Ht. subst tm. reflexivity. }
    split; [| split].
    + intros n Hn. rewrite (advance_wait _ _ _ 100 n w1 T1 Hn).
      subst w1. open_world w. reflexivity.
    + rewrite (advance_fire _ _ _ 100 w1 T1) by lia.
      subst w1. open_world w. reflexivity.
    + rewrite (advance_fire _ _ _ 100 w1 T1) by lia.
      subst w1. open_world w. reflexivity.
  - intros n.
    assert (T1 : timers w1 = []).
    { subst w1. open_world w. cbn in Ht. subst tm. reflexivity. }
    rewrite (advance_idle _ _ n w1 T1).
    subst w1. open_world w. split; reflexivity.
Qed.

Lemma capture_end_restarts_capture_witness :
  isListening
    (advance Login.applyPage Login.runTask 100
             (fire Login.applyPage Login.recognitionOnEnd
                   (platRecEnded Login.initial)))
  = true.
Proof.
  pose proof (capture_end_restarts_capture Login.initial eq_refl) as H.
  cbv zeta in H. destruct H as (_ & H & _).
  destruct (H eq_refl) as (_ & H100 & _). exact H100.
Defined.

(** ** Leaving the dashboard *)



(** ** Voice and cards *)

(** For every mode, the voice command of the mode and the activation of its
    card (by click or keyboard) lead to the same mode, but they do not say the
    same: the voice command is answered by the prompt of its branch, the card
    by the instructions of the mode, and the two texts differ.  Only the card
    plays the click tone. *)
Theorem voice_and_card_same_mode_other_words :
  forall (w : Dashboard.World) (m : Dashboard.DashboardMode),
    let byVoice :=
      fire Dashboard.applyPage (Dashboard.respond (DashboardUI.intentFor m)) w in
    let byCard := fire Dashboard.applyPage (Dashboard.handleModeSelect m) w in
    Dashboard.currentMode (page byVoice) = m
    /\ Dashboard.currentMode (page byCard) = m
    /\ tones byVoice = tones w
    /\ tones byCard = tones w ++ [ToneClick]
    /\ (synthRef w = true ->
        spoken byCard = spoken w ++ [Dashboard.instructions m]
        /\ exists prompt,
            prompt <> Dashboard.instructions m
            /\ spoken byVoice = spoken w ++ [prompt]).
Proof.
  intros w m byVoice byCard. subst byVoice byCard. unfold fire.
  open_world w.
  destruct m, sr; cbn; unfold Dashboard.speakModeInstructions;
    split_flags;
    (split; [reflexivity |]); (split; [reflexivity |]);
    (split; [reflexivity |]); (split; [reflexivity |]);
    intros Hs; try discriminate Hs;
    (split; [reflexivity |]);
    eexists; (split; [| reflexivity]); discriminate.
Qed.

Lemma voice_and_card_same_mode_other_words_witness :
  spoken (fire Dashboard.applyPage
               (Dashboard.handleModeSelect Dashboard.ModeExam)
               Dashboard.initial)
  = [Dashboard.instructions Dashboard.ModeExam].
Proof.
  pose proof (voice_and_card_same_mode_other_words
                Dashboard.initial Dashboard.ModeExam) as H.
  cbv zeta in H. destruct H as (_ & _ & _ & _ & H).
  destruct (H eq_refl) as [Hc _]. exact Hc.
Defined.

(** ** Keyboard navigation between the cards *)

Lemma modeAt_in_range (i : Z) :
  (0 <= i <= 5)%Z -> exists m, DashboardUI.modeAt i = Some m.
Proof.
  intros H.
  assert (C : i = 0%Z \/ i = 1%Z \/ i = 2%Z \/ i = 3%Z \/ i = 4%Z \/ i = 5%Z)
    by lia.
  destruct C as [-> | [-> | [-> | [-> | [-> | ->]]]]];
    eexists; reflexivity.
Qed.

Lemma modeAt_not_home (i : Z) (m : DashboardUI.ModeConfig) :
  DashboardUI.modeAt i = Some m -> DashboardUI.id m <> Dashboard.ModeHome.
Proof.
  unfold DashboardUI.modeAt. destruct (i <? 0)%Z; [discriminate |].
  destruct (Z.to_nat i) as [| [| [| [| [| [| n]]]]]]; cbn;
    intros E; inversion E; subst; try discriminate.
  destruct n; discriminate.
Qed.

Lemma announce_in_range (s : DashboardUI.Screen) :
  (0 <= DashboardUI.selectedIndex s <= 5)%Z ->
  exists s', DashboardUI.announceSelected s = Some s'
             /\ DashboardUI.selectedIndex s' = DashboardUI.selectedIndex s.
Proof.
  intros H. unfold DashboardUI.announceSelected.
  destruct (DashboardUI.atHome s && negb (isSpeaking (DashboardUI.world s)))%bool.
  - destruct (modeAt_in_range _ H) as [m ->]. eexists. split; reflexivity.
  - exists s. split; reflexivity.
Qed.

Lemma keyDown_in_range (key : string) (s : DashboardUI.Screen) :
  (0 <= DashboardUI.selectedIndex s <= 5)%Z ->
  exists s', DashboardUI.keyDown key s = Some s'
             /\ (0 <= DashboardUI.selectedIndex s' <= 5)%Z.
Proof.
  intros H. unfold DashboardUI.keyDown, DashboardUI.handleKeyDown.
  destruct (negb (DashboardUI.atHome s)).
  { rewrite Z.eqb_refl. exists s. split; [reflexivity | exact H]. }
  destruct (String.eqb key "ArrowDown").
  { cbn [DashboardUI.selectedIndex].
    match goal with
    | |- context [(?a =? ?b)%Z] => destruct (a =? b)%Z eqn:E
    end.
    - eexists. split; [reflexivity |]. cbn. lia.
    - match goal with
      | |- context [DashboardUI.announceSelected ?x] =>
          destruct (announce_in_range x) as (s' & -> & Hs); [cbn; lia |]
      end.
      exists s'. split; [reflexivity |]. rewrite Hs. cbn. lia. }
  destruct (String.eqb key "ArrowUp").
  { cbn [DashboardUI.selectedIndex].
    match goal with
    | |- context [(?a =? ?b)%Z] => destruct (a =? b)%Z eqn:E
    end.
    - eexists. split; [reflexivity |]. cbn. lia.
    - match goal with
      | |- context [DashboardUI.announceSelected ?x] =>
          destruct (announce_in_range x) as (s' & -> & Hs); [cbn; lia |]
      end.
      exists s'. split; [reflexivity |]. rewrite Hs. cbn. lia. }
  destruct (String.eqb key "Enter" || String.eqb key " ")%bool.
  { destruct (modeAt_in_range _ H) as [m ->].
    cbn [DashboardUI.selectedIndex]. rewrite Z.eqb_refl.
    eexists. split; [reflexivity | exact H]. }
  rewrite Z.eqb_refl. exists s. split; [reflexivity | exact H].
Qed.

(** Whatever keys are pressed, the selected index stays within the six cards
    (the arrows stop at both ends), so that the card read by Enter, by Space
    and by the announcement always exists: no key sequence makes the handler
    throw. *)
Theorem keyboard_selection_stays_in_range :
  forall (keys : list string) (s : DashboardUI.Screen),
    (0 <= DashboardUI.selectedIndex s <= 5)%Z ->
    exists s', DashboardUI.keysDown keys s = Some s'
               /\ (0 <= DashboardUI.selectedIndex s' <= 5)%Z.
Proof.
  intros keys. induction keys as [| k ks IH]; intros s H.
  - exists s. split; [reflexivity | exact H].
  - cbn [DashboardUI.keysDown].
    destruct (keyDown_in_range k s H) as (s1 & -> & H1).
    apply IH. exact H1.
Qed.

Lemma keyboard_selection_stays_in_range_witness :
  exists s',
    DashboardUI.keysDown ["ArrowUp"; "ArrowDown"; "ArrowDown"; "Enter"]
                         (DashboardUI.mkScreen Dashboard.initial 0)
    = Some s'
    /\ (0 <= DashboardUI.selectedIndex s' <= 5)%Z.
Proof.
  apply keyboard_selection_stays_in_range. cbn. lia.
Defined.

(** The keyboard only acts on the home view.  In any other mode every key is
    ignored; and once Enter (or Space) has opened the selected card, the mode
    is the one of that card, its instructions are spoken, and no further key
    has any effect. *)
Theorem keyboard_acts_on_home_only :
  (forall (key : string) (s : DashboardUI.Screen),
      DashboardUI.atHome s = false -> DashboardUI.keyDown key s = Some s)
  /\ (forall (s : DashboardUI.Screen),
         DashboardUI.atHome s = true ->
         (0 <= DashboardUI.selectedIndex s <= 5)%Z ->
         exists m s',
           DashboardUI.modeAt (DashboardUI.selectedIndex s) = Some m
           /\ DashboardUI.keyDown "Enter" s = Some s'
           /\ DashboardUI.keyDown " " s = Some s'
           /\ Dashboard.currentMode (page (DashboardUI.world s'))
              = DashboardUI.id m
           /\ spoken (DashboardUI.world s')
              = spoken (DashboardUI.world s)
                ++ (if synthRef (DashboardUI.world s)
                    then [Dashboard.instructions (DashboardUI.id m)] else [])
           /\ forall keys, DashboardUI.keysDown keys s' = Some s').
Proof.
  assert (Inert : forall key s, DashboardUI.atHome s = false ->
                                DashboardUI.keyDown key s = Some s).
  { intros key s H. unfold DashboardUI.keyDown, DashboardUI.handleKeyDown.
    rewrite H. cbn. rewrite Z.eqb_refl. reflexivity. }
  split; [exact Inert |].
  intros s Hh Hr. destruct (modeAt_in_range _ Hr) as [m Hm].
  exists m. eexists. split; [exact Hm |].
  unfold DashboardUI.keyDown, DashboardUI.handleKeyDown.
  rewrite Hh, Hm. cbn [negb String.eqb Ascii.eqb Bool.eqb orb
                       DashboardUI.selectedIndex].
  rewrite Z.eqb_refl.
  split; [reflexivity |]. split; [reflexivity |].
  pose proof (modeAt_not_home _ _ Hm) as Hn.
  destruct s as [w idx]. cbn [DashboardUI.world] in *.
  assert (C : Dashboard.currentMode
                (page (fire Dashboard.applyPage
                            (Dashboard.handleModeSelect (DashboardUI.id m)) w))
              = DashboardUI.id m).
  { unfold fire. open_world w. cbn.
    unfold Dashboard.speakModeInstructions. split_flags; reflexivity. }
  split; [exact C |].
  split.
  { unfold fire. open_world w. cbn.
    unfold Dashboard.speakModeInstructions. split_flags;
      rewrite ?app_nil_r; reflexivity. }
  intros keys. induction keys as [| k ks IH]; [reflexivity |].
  cbn [DashboardUI.keysDown]. rewrite Inert; [exact IH |].
  unfold DashboardUI.atHome. cbn [DashboardUI.world]. rewrite C.
  destruct (DashboardUI.id m); try reflexivity. contradiction.
Qed.

Lemma keyboard_acts_on_home_only_witness :
  exists m s',
    DashboardUI.modeAt 2 = Some m
    /\ DashboardUI.keyDown "Enter" (DashboardUI.mkScreen Dashboard.initial 2)
       = Some s'
    /\ Dashboard.currentMode (page (DashboardUI.world s')) = DashboardUI.id m.
Proof.
  destruct keyboard_acts_on_home_only as [_ H].
  destruct (H (DashboardUI.mkScreen Dashboard.initial 2) eq_refl)
    as (m & s' & Hm & He & _ & Hc & _); [cbn; lia |].
  exists m, s'. repeat split; assumption.
Defined.

(** At either end of the row of cards the arrow key that points outwards does
    nothing at all: the index stays and nothing is announced.  Anywhere else
    ArrowDown followed by ArrowUp comes back to the same card. *)
Theorem arrows_stop_at_the_ends :
  forall s : DashboardUI.Screen,
    DashboardUI.atHome s = true ->
    (DashboardUI.selectedIndex s = 5%Z ->
     DashboardUI.keyDown "ArrowDown" s = Some s)
    /\ (DashboardUI.selectedIndex s = 0%Z ->
        DashboardUI.keyDown "ArrowUp" s = Some s)
    /\ ((0 <= DashboardUI.selectedIndex s < 5)%Z ->
        exists s',
          DashboardUI.keysDown ["ArrowDown"; "ArrowUp"] s = Some s'
          /\ DashboardUI.selectedIndex s' = DashboardUI.selectedIndex s
          /\ Dashboard.currentMode (page (DashboardUI.world s'))
             = Dashboard.ModeHome).
Proof.
  intros [w idx] Hh. cbn [DashboardUI.selectedIndex].
  split; [| split].
  - intros ->. unfold DashboardUI.keyDown, DashboardUI.handleKeyDown.
    rewrite Hh. reflexivity.
  - intros ->. unfold DashboardUI.keyDown, DashboardUI.handleKeyDown.
    rewrite Hh. reflexivity.
  - intros Hr.
    assert (C : idx = 0%Z \/ idx = 1%Z \/ idx = 2%Z \/ idx = 3%Z \/ idx = 4%Z)
      by lia.
    unfold DashboardUI.atHome in Hh. cbn [DashboardUI.world] in Hh.
    destruct w as [li sp tr lr rr sr rs sy pg spk tn co st hr nw tm].
    destruct pg as [cm mu]. cbn in Hh.
    destruct cm; try discriminate Hh.
    destruct C as [-> | [-> | [-> | [-> | ->]]]];
      destruct sp, sr; eexists; (split; [reflexivity |]);
        split; reflexivity.
Qed.

Lemma arrows_stop_at_the_ends_witness :
  DashboardUI.keyDown "ArrowUp" (DashboardUI.mkScreen Dashboard.initial 0)
  = Some (DashboardUI.mkScreen Dashboard.initial 0).
Proof.
  destruct (arrows_stop_at_the_ends
              (DashboardUI.mkScreen Dashboard.initial 0) eq_refl)
    as (_ & H & _).
  apply H. reflexivity.
Defined.

(** ** The shape of a captured username *)

Lemma forallChar_trimStart (p : ascii -> bool) (s : string) :
  JS.forallChar p s = true -> JS.forallChar p (JS.trimStart s) = true.
Proof.
  induction s as [| c s IH]; cbn; [reflexivity |]. intros H.
  destruct (JS.isSpace c); [| exact H].
  apply andb_prop in H. apply IH. apply H.
Qed.

Lemma forallChar_trimEnd (p : ascii -> bool) (s : string) :
  JS.forallChar p s = true -> JS.forallChar p (JS.trimEnd s) = true.
Proof.
  induction s as [| c s IH]; [reflexivity |]. cbn [JS.forallChar JS.trimEnd].
  intros H. apply andb_prop in H. destruct H as [Hc Hs].
  specialize (IH Hs). destruct (JS.trimEnd s) as [| d r].
  - destruct (JS.isSpace c); cbn; [reflexivity |]. rewrite Hc. reflexivity.
  - cbn [JS.forallChar] in IH |- *. rewrite Hc, IH. reflexivity.
Qed.

Lemma strip_without_digits (s : string) :
  JS.hasDigit s = false ->
  JS.forallChar (fun c => LoginInv.isLetter c || JS.isSpace c)
                (JS.stripNonAlnumSpace s) = true
  /\ JS.hasDigit (JS.stripNonAlnumSpace s) = false.
Proof.
  unfold JS.hasDigit, JS.stripNonAlnumSpace, LoginInv.isLetter.
  induction s as [| c s IH]; cbn; [auto |]. intros H.
  apply orb_false_elim in H. destruct H as [Hd Hs]. rewrite Hd.
  destruct (IH Hs) as [I1 I2].
  destruct (JS.isUpper c || JS.isLower c || false || JS.isSpace c)%bool eqn:K;
    cbn; [| auto].
  rewrite Hd, I1, I2. rewrite orb_false_r in K. rewrite K. auto.
Qed.

Lemma hasDigit_trim (s : string) :
  JS.hasDigit s = false -> JS.hasDigit (JS.trim s) = false.
Proof.
  unfold JS.hasDigit. intros H.
  assert (F : JS.forallChar (fun c => negb (JS.isDigit c)) s = true).
  { induction s as [| c s IH]; cbn in *; [reflexivity |].
    apply orb_false_elim in H. destruct H as [Hd Hs].
    rewrite Hd, (IH Hs). reflexivity. }
  unfold JS.trim.
  apply (forallChar_trimStart _ s) in F. apply forallChar_trimEnd in F.
  revert F. generalize (JS.trimEnd (JS.trimStart s)). intros t.
  induction t as [| c t IH]; cbn; [reflexivity |]. intros F.
  apply andb_prop in F. destruct F as [Fc Ft].
  apply negb_true_iff in Fc. rewrite Fc, (IH Ft). reflexivity.
Qed.

(** What "username detection" accepts as a username has at least two
    characters, consists of letters and white space only (no digit, no
    punctuation) and carries no white space at either end. *)
Theorem username_candidate_shape :
  forall command cleanUsername : string,
    Login.usernameCandidate command = Some cleanUsername ->
    2 <= String.length cleanUsername
    /\ JS.forallChar (fun c => LoginInv.isLetter c || JS.isSpace c)
                     cleanUsername = true
    /\ JS.hasDigit cleanUsername = false
    /\ JS.trim cleanUsername = cleanUsername.
Proof.
  intros command u. unfold Login.usernameCandidate.
  destruct (JS.hasDigit command) eqn:Hd; [discriminate |].
  cbn [orb].
  destruct (negb (existsb (JS.includesCI command) Login.numberNames)
            && (2 <=? String.length command)%nat)%bool; [| discriminate].
  destruct (2 <=? String.length (JS.trim (JS.stripNonAlnumSpace command)))%nat
    eqn:L; [| discriminate].
  intros E. inversion E; subst; clear E.
  destruct (strip_without_digits command Hd) as [S1 S2].
  split; [apply Nat.leb_le; exact L |].
  split; [unfold JS.trim; apply forallChar_trimEnd, forallChar_trimStart;
          exact S1 |].
  split; [apply hasDigit_trim; exact S2 | apply trim_idempotent].
Qed.

Lemma username_candidate_shape_witness :
  JS.trim "mary ann" = "mary ann".
Proof.
  destruct (username_candidate_shape "mary ann." "mary ann" eq_refl)
    as (_ & _ & _ & H).
  exact H.
Defined.

(** ** Digits *)

Lemma canon_letter (a : ascii) :
  LoginInv.isLetter a = true -> LoginInv.isLetter (JS.canon a) = true.
Proof.
  destruct a as [[] [] [] [] [] [] [] []]; vm_compute; auto.
Qed.

Lemma canon_other (c : ascii) :
  LoginInv.isLetter c = false -> JS.canon c = c.
Proof.
  unfold LoginInv.isLetter, JS.canon. intros H.
  apply orb_false_elim in H. destruct H as [_ H]. rewrite H. reflexivity.
Qed.

Lemma no_match_on_other (a c : ascii) (w' t : string) :
  LoginInv.isLetter a = true ->
  LoginInv.isLetter c = false ->
  JS.matchPrefixCI (String a w') (String c t) = None.
Proof.
  intros Ha Hc. cbn [JS.matchPrefixCI].
  destruct (Ascii.eqb_spec (JS.canon a) (JS.canon c)) as [E | E];
    [| reflexivity].
  rewrite (canon_other c Hc) in E. apply canon_letter in Ha.
  rewrite E in Ha. congruence.
Qed.

(** A word that starts with a letter is not found in a text without letters. *)
Lemma replaceWord_without_letters (a : ascii) (w' d s : string) (prev : bool) :
  LoginInv.isLetter a = true ->
  JS.forallChar (fun c => negb (LoginInv.isLetter c)) s = true ->
  JS.replaceWordFrom (String a w') d prev 0 s = s.
Proof.
  intros Ha. revert prev. induction s as [| c s IH]; intros prev H;
    [reflexivity |].
  cbn [JS.forallChar] in H. apply andb_prop in H. destruct H as [Hc Hs].
  apply negb_true_iff in Hc.
  cbn [JS.replaceWordFrom]. rewrite (no_match_on_other a c w' s Ha Hc).
  rewrite (IH _ Hs). reflexivity.
Qed.

Lemma numberWords_without_letters (s : string) :
  JS.forallChar (fun c => negb (LoginInv.isLetter c)) s = true ->
  fold_left (fun processedCommand (e : string * string) =>
               JS.replaceWord (fst e) (snd e) processedCommand)
            Login.numberWords s
  = s.
Proof.
  intros H. unfold Login.numberWords. cbn [fold_left fst snd].
  unfold JS.replaceWord.
  repeat (rewrite (replaceWord_without_letters _ _ _ s);
          [| reflexivity | exact H]).
  reflexivity.
Qed.

Lemma digit_not_letter (c : ascii) :
  JS.isDigit c = true -> LoginInv.isLetter c = false.
Proof.
  destruct c as [[] [] [] [] [] [] [] []]; vm_compute; auto.
Qed.

Lemma filter_all (p : ascii -> bool) (s : string) :
  JS.forallChar p s = true -> JS.filterChars p s = s.
Proof.
  induction s as [| c s IH]; cbn; [reflexivity |]. intros H.
  apply andb_prop in H. destruct H as [Hc Hs].
  rewrite Hc, (IH Hs). reflexivity.
Qed.

(** The translation of number words only ever touches letters: from an
    utterance without letters "PIN detection" extracts the digit characters,
    in order; in particular a string of digits comes out as it is. *)
Theorem spoken_digits_without_letters :
  (forall s : string,
      JS.forallChar (fun c => negb (LoginInv.isLetter c)) s = true ->
      Login.spokenDigits s = JS.stripNonDigits s)
  /\ (forall s : string,
         JS.forallChar JS.isDigit s = true -> Login.spokenDigits s = s).
Proof.
  assert (A : forall s : string,
             JS.forallChar (fun c => negb (LoginInv.isLetter c)) s = true ->
             Login.spokenDigits s = JS.stripNonDigits s).
  { intros s H. unfold Login.spokenDigits.
    rewrite (numberWords_without_letters s H). reflexivity. }
  split; [exact A |].
  intros s H. rewrite A.
  - apply filter_all. exact H.
  - clear A. induction s as [| c s IH]; [reflexivity |].
    cbn in H |- *. apply andb_prop in H. destruct H as [Hc Hs].
    rewrite (digit_not_letter c Hc), (IH Hs). reflexivity.
Qed.

Lemma spoken_digits_without_letters_witness :
  Login.spokenDigits "4-8 2.1" = JS.stripNonDigits "4-8 2.1"
  /\ Login.spokenDigits "4821" = "4821".
Proof.
  destruct spoken_digits_without_letters as [A B].
  split; [apply A | apply B]; reflexivity.
Defined.

Lemma substring_append_exact (a b : string) :
  substring 0 (String.length a) (a +:+ b) = a.
Proof.
  induction a as [| c a IH]; simpl.
  - destruct b; reflexivity.
  - rewrite IH. reflexivity.
Qed.

(** A pin of six characters is full: an utterance taken as digits leaves it
    as it is, and yet the screen announces the digits as added, to a pin of
    6 digits. *)
Theorem full_pin_is_not_extended :
  forall (w : Login.World) (numbers : string),
    Login.hasCommand w = true ->
    String.length (Login.pin (page w)) = 6 ->
    Login.classify (Login.mode (page w)) (Login.username (page w))
                   (Login.commandOf w)
    = Login.PinDigits numbers ->
    let w' := fire Login.applyPage Login.voiceCommandEffect w in
    Login.pin (page w') = Login.pin (page w)
    /\ Login.username (page w') = Login.username (page w)
    /\ spoken w'
       = spoken w
         ++ (if synthRef w
             then ["Added " +:+ JS.spaced numbers
                   +:+ ". PIN now has 6 digits."]
             else []).
Proof.
  intros w numbers Hc Hl Hi w'. subst w'.
  unfold fire, Login.voiceCommandEffect.
  unfold Login.hasCommand in Hc. apply negb_true_iff in Hc. rewrite Hc.
  unfold Login.commandOf in Hi. rewrite Hi. clear Hi Hc.
  open_world w. cbn in Hl.
  assert (S : JS.slice0 6 (pin +:+ numbers) = pin).
  { unfold JS.slice0. rewrite <- Hl. apply substring_append_exact. }
  split_flags; rewrite ?S, ?Hl, ?app_nil_r; repeat split; reflexivity.
Qed.

Lemma full_pin_is_not_extended_witness :
  Login.pin
    (page (fire Login.applyPage Login.voiceCommandEffect
                (fire Login.applyPage (Login.recognitionOnResult "7 8" true)
                      (Login.withDraft Login.ModeLogin "rahul" "123456"))))
  = "123456".
Proof.
  pose proof
       (full_pin_is_not_extended
          (fire Login.applyPage (Login.recognitionOnResult "7 8" true)
                (Login.withDraft Login.ModeLogin "rahul" "123456"))
          "78" eq_refl eq_refl eq_refl) as H.
  cbv zeta in H. destruct H as (H & _). exact H.
Defined.

(** ** Persistent storage *)

Ltac acts_ok :=
  repeat match goal with
         | |- Forall _ (_ ++ _) => apply Forall_app; split
         | |- Forall _ (_ :: _) => constructor
         | |- Forall _ [] => constructor
         | |- Forall _ (if ?b then _ else _) => destruct b eqn:?
         | |- Forall _ (match ?m with Login.ModeWelcome => _ | _ => _ end) =>
             destruct m
         | |- LoginInv.actOk _ => exact I
         end.

Lemma apply_keeps_inv (a : Login.Action) (w : Login.World) :
  LoginInv.actOk a -> LoginInv.inv w ->
  LoginInv.inv (apply Login.applyPage a w).
Proof.
  unfold LoginInv.inv. intros Ha [Ht Hs].
  destruct w as [li sp tr lr rr sr rs sy pg spk tn co st hr nw tm].
  destruct a; cbn in *; try (split; assumption); try contradiction.
  split; [| exact Hs].
  apply Forall_app. split; [exact Ht |]. constructor; [exact Ha | constructor].
Qed.

Lemma run_keeps_inv (acts : list Login.Action) (w : Login.World) :
  Forall LoginInv.actOk acts -> LoginInv.inv w ->
  LoginInv.inv (run Login.applyPage acts w).
Proof.
  revert w. induction acts as [| a acts IH]; intros w Ha Hw; [exact Hw |].
  inversion Ha; subst. cbn. apply IH; [assumption |].
  apply apply_keeps_inv; assumption.
Qed.

Lemma speak_ok (l : bool) (text : string) (w : Login.World) :
  Forall LoginInv.actOk (Login.speak l text w).
Proof. unfold Login.speak. acts_ok. Qed.

Lemma handleModeChange_ok (m : Login.AuthMode) (w : Login.World) :
  Forall LoginInv.actOk (Login.handleModeChange m w).
Proof. unfold Login.handleModeChange. acts_ok; apply speak_ok. Qed.

Lemma handleClearForm_ok (w : Login.World) :
  Forall LoginInv.actOk (Login.handleClearForm w).
Proof. unfold Login.handleClearForm. acts_ok; apply speak_ok. Qed.

Lemma handleSubmit_ok (w : Login.World) :
  Forall LoginInv.actOk (Login.handleSubmit w).
Proof.
  unfold Login.handleSubmit.
  destruct (String.eqb (Login.username (page w)) ""
            || (String.length (Login.pin (page w)) <? 4)%nat)%bool eqn:T.
  - acts_ok; apply speak_ok.
  - apply orb_false_elim in T. destruct T as [Tu _].
    apply String.eqb_neq in Tu.
    acts_ok; try apply speak_ok. exact Tu.
Qed.

Lemma effect_ok (w : Login.World) :
  Forall LoginInv.actOk (Login.voiceCommandEffect w).
Proof.
  unfold Login.voiceCommandEffect.
  destruct (String.eqb (lastResult w) ""
            || String.eqb (JS.trim (lastResult w)) "")%bool;
    [constructor |].
  constructor; [exact I |].
  destruct (Login.classify (Login.mode (page w)) (Login.username (page w))
                           (JS.trim (JS.toLowerCase (lastResult w))));
    unfold Login.respond, Login.clearTranscript; acts_ok;
    first [apply handleModeChange_ok | apply handleClearForm_ok
          | apply handleSubmit_ok | apply speak_ok].
Qed.

Lemma storage_after_resume (u : string) (st : gmap string string) :
  u <> "" ->
  LoginInv.storageOk (<["username" := u]> (<["isLoggedIn" := "true"]> st)).
Proof.
  intros Hu. unfold LoginInv.storageOk.
  rewrite lookup_insert_ne by discriminate.
  rewrite !lookup_insert_eq. split; [reflexivity | exact Hu].
Qed.

Lemma task_keeps_inv (t : Login.Task) (w : Login.World) :
  LoginInv.taskOk t -> LoginInv.inv w ->
  LoginInv.inv (fire Login.applyPage (Login.runTask t) w).
Proof.
  intros Ht Hw. unfold fire.
  destruct t as [| | u l |]; cbn [Login.runTask].
  - apply run_keeps_inv; [unfold Login.tryStart; acts_ok | exact Hw].
  - apply run_keeps_inv; [unfold Login.tryStart; acts_ok | exact Hw].
  - cbn in Ht. unfold run. rewrite !fold_left_app.
    change (fold_left (fun w a => apply Login.applyPage a w) ?l ?x)
      with (run Login.applyPage l x).
    pose proof (run_keeps_inv
                  ([PlayTone ToneSuccess]
                   ++ Login.speak l "Login successful! Welcome to your dashboard." w)
                  w) as H.
    unfold run in H. rewrite fold_left_app in H.
    match type of H with
    | _ -> _ -> LoginInv.inv ?x =>
        assert (Hx : LoginInv.inv x)
          by (apply H; [acts_ok; apply speak_ok | exact Hw])
    end.
    clear H. revert Hx.
    match goal with
    | |- LoginInv.inv ?x -> _ => generalize x
    end.
    intros w1 [H1 H2].
    destruct w1 as [li sp tr lr rr sr rs sy pg spk tn co st hr nw tm].
    cbn in *. split.
    + apply Forall_app. split; [exact H1 |]. repeat constructor.
    + apply storage_after_resume. exact Ht.
  - apply run_keeps_inv; [acts_ok | exact Hw].
Qed.

Lemma tasks_keep_inv (l : list (nat * Login.Task)) (w : Login.World) :
  LoginInv.timersOk l -> LoginInv.inv w ->
  LoginInv.inv
    (fold_left (fun w p => fire Login.applyPage (Login.runTask (snd p)) w) l w).
Proof.
  revert w. induction l as [| p l IH]; intros w Hl Hw; [exact Hw |].
  inversion Hl; subst. cbn. apply IH; [assumption |].
  apply task_keeps_inv; assumption.
Qed.

Lemma timersOk_filter (f : nat * Login.Task -> bool)
      (tm : list (nat * Login.Task)) :
  LoginInv.timersOk tm -> LoginInv.timersOk (List.filter f tm).
Proof.
  unfold LoginInv.timersOk. induction tm as [| p tm IH]; intros H;
    [constructor |].
  inversion H; subst. cbn. destruct (f p); [constructor |]; auto.
Qed.

Lemma tick_keeps_inv (w : Login.World) :
  LoginInv.inv w -> LoginInv.inv (tick Login.applyPage Login.runTask w).
Proof.
  intros [Ht Hs].
  destruct w as [li sp tr lr rr sr rs sy pg spk tn co st hr nw tm].
  cbn in Ht, Hs. unfold tick. apply tasks_keep_inv.
  - apply timersOk_filter. exact Ht.
  - split; cbn; [apply timersOk_filter; exact Ht | exact Hs].
Qed.

Lemma advance_keeps_inv (n : nat) (w : Login.World) :
  LoginInv.inv w -> LoginInv.inv (advance Login.applyPage Login.runTask n w).
Proof.
  intros H. induction n as [| n IH]; [exact H |].
  rewrite advance_succ. apply tick_keeps_inv. exact IH.
Qed.

Lemma plat_keeps_inv (w : Login.World) :
  LoginInv.inv w ->
  LoginInv.inv (platRecEnded w)
  /\ forall sy, LoginInv.inv (platSynth sy w).
Proof.
  intros H. destruct w; split; [| intros sy0]; exact H.
Qed.

Lemma handle_keeps_inv (e : Login.Event) (w w' : Login.World) :
  LoginInv.inv w -> Login.handle e w = Some w' -> LoginInv.inv w'.
Proof.
  intros Hw H. destruct (plat_keeps_inv w Hw) as [P1 P2].
  destruct e; cbn [Login.handle] in H;
    try (unfold Login.guard in H;
         match type of H with
         | (if ?b then _ else _) = _ => destruct b; [| discriminate]
         end);
    inversion H; subst; clear H;
    try (apply advance_keeps_inv; exact Hw);
    unfold fire; apply run_keeps_inv; auto;
    first [ apply speak_ok | apply handleModeChange_ok
          | apply handleClearForm_ok | apply handleSubmit_ok
          | unfold Login.startListening, Login.stopListening,
              Login.recognitionOnResult, Login.recognitionOnError,
              Login.recognitionOnEnd, Login.utteranceOnStart,
              Login.utteranceOnEnd, Login.tryStart; acts_ok ].
Qed.

(** Whatever happens on the login screen, persistent storage holds either
    nothing or the marker isLoggedIn = "true" together with a username that is
    not empty: the marker is never written without a username, and never with
    another value. *)
Theorem storage_holds_marker_with_username :
  forall (es : list Login.Event) (w w' : Login.World),
    LoginInv.inv w ->
    Login.steps es w = Some w' ->
    LoginInv.inv w'
    /\ (storage w' !! "isLoggedIn" = None /\ storage w' !! "username" = None
        \/ exists user,
            user <> ""
            /\ storage w' !! "isLoggedIn" = Some "true"
            /\ storage w' !! "username" = Some user).
Proof.
  assert (Shape : forall w : Login.World,
             LoginInv.inv w ->
             storage w !! "isLoggedIn" = None /\ storage w !! "username" = None
             \/ exists user,
                 user <> ""
                 /\ storage w !! "isLoggedIn" = Some "true"
                 /\ storage w !! "username" = Some user).
  { intros w [_ H]. unfold LoginInv.storageOk in H.
    destruct (storage w !! "isLoggedIn") as [f |],
             (storage w !! "username") as [u |]; try contradiction.
    - destruct H as [-> Hu]. right. exists u. auto.
    - left. auto. }
  intros es. induction es as [| e es IH]; intros w w' Hw H.
  - inversion H; subst. split; [exact Hw | apply Shape; exact Hw].
  - cbn in H. destruct (Login.step e w) as [w1 |] eqn:E; [| discriminate].
    apply (IH w1 w'); [| exact H].
    unfold Login.step in E.
    destruct (Login.handle e w) as [w0 |] eqn:E0; [| discriminate].
    inversion E; subst. unfold fire. apply run_keeps_inv.
    + apply effect_ok.
    + apply (handle_keeps_inv e w w0 Hw E0).
Qed.

Lemma storage_holds_marker_with_username_witness :
  exists w',
    Login.steps [Login.ClickMode Login.ModeLogin; Login.TypeUsername "ana";
                 Login.TypePin "4821"; Login.ClickSubmit; Login.Elapse 1500]
                Login.initial = Some w'
    /\ LoginInv.inv w'.
Proof.
  assert (I0 : LoginInv.inv Login.initial).
  { split; [constructor | exact I]. }
  destruct (Login.steps
              [Login.ClickMode Login.ModeLogin; Login.TypeUsername "ana";
               Login.TypePin "4821"; Login.ClickSubmit; Login.Elapse 1500]
              Login.initial) as [w' |] eqn:H.
  - exists w'. split; [reflexivity |].
    apply (storage_holds_marker_with_username _ Login.initial w' I0 H).
  - vm_compute in H. discriminate H.
Defined.

(** ** The processing flag *)

Lemma effect_keeps_processing (w : Login.World) :
  Login.isProcessing (page w) = true ->
  Login.isProcessing
    (page (fire Login.applyPage Login.voiceCommandEffect w)) = true.
Proof.
  open_effect w. intros H. subst.
  destruct (String.eqb lr "" || String.eqb (JS.trim lr) "")%bool; cbn;
    [reflexivity |].
  destruct i; split_flags; reflexivity.
Qed.

Lemma task_keeps_processing (t : Login.Task) (w : Login.World) :
  Login.isProcessing (page (fire Login.applyPage (Login.runTask t) w))
  = Login.isProcessing (page w).
Proof.
  unfold fire. destruct t; open_world w; split_flags; reflexivity.
Qed.

Lemma tasks_keep_processing (l : list (nat * Login.Task)) (w : Login.World) :
  Login.isProcessing
    (page (fold_left (fun w p => fire Login.applyPage (Login.runTask (snd p)) w)
                     l w))
  = Login.isProcessing (page w).
Proof.
  revert w. induction l as [| p l IH]; intros w; cbn; [reflexivity |].
  rewrite IH. apply task_keeps_processing.
Qed.

Lemma advance_keeps_processing (n : nat) (w : Login.World) :
  Login.isProcessing (page (advance Login.applyPage Login.runTask n w))
  = Login.isProcessing (page w).
Proof.
  induction n as [| n IH]; [reflexivity |].
  rewrite advance_succ.
  destruct (advance Login.applyPage Login.runTask n w)
    as [li sp tr lr rr sr rs sy pg spk tn co st hr nw tm] eqn:E.
  unfold tick. rewrite tasks_keep_processing. cbn. cbn in IH. exact IH.
Qed.

Lemma handle_keeps_processing (e : Login.Event) (w w' : Login.World) :
  Login.isProcessing (page w) = true ->
  Login.handle e w = Some w' ->
  Login.isProcessing (page w') = true.
Proof.
  intros Hp H.
  destruct e as [| | text | m | | | value | value | t f | err | | | | ms];
    cbn [Login.handle] in H;
    try (unfold Login.guard in H;
         match type of H with
         | (if ?b then _ else _) = _ => destruct b; [| discriminate]
         end);
    inversion H; subst; clear H.
  14: { rewrite advance_keeps_processing. exact Hp. }
  4: destruct m.
  all: unfold fire; open_world w; cbn in Hp; subst; split_flags; reflexivity.
Qed.

(** Nothing on the login screen ever clears the processing flag: once a
    submission has been accepted, the flag (which disables the submit button)
    stays set through every later event, the end of the submission
    included. *)
Theorem processing_flag_is_never_cleared :
  forall (es : list Login.Event) (w w' : Login.World),
    Login.isProcessing (page w) = true ->
    Login.steps es w = Some w' ->
    Login.isProcessing (page w') = true.
Proof.
  intros es. induction es as [| e es IH]; intros w w' Hp H.
  - inversion H; subst. exact Hp.
  - cbn in H. destruct (Login.step e w) as [w1 |] eqn:E; [| discriminate].
    apply (IH w1 w'); [| exact H].
    unfold Login.step in E.
    destruct (Login.handle e w) as [w0 |] eqn:E0; [| discriminate].
    inversion E; subst. apply effect_keeps_processing.
    apply (handle_keeps_processing e w w0 Hp E0).
Qed.

Lemma processing_flag_is_never_cleared_witness :
  exists w',
    Login.steps [Login.Elapse 1500; Login.ClickClear;
                 Login.ClickMode Login.ModeWelcome]
                (fire Login.applyPage Login.handleSubmit
                      (Login.withDraft Login.ModeLogin "ana" "4821"))
    = Some w'
    /\ Login.isProcessing (page w') = true.
Proof.
  destruct (Login.steps
              [Login.Elapse 1500; Login.ClickClear;
               Login.ClickMode Login.ModeWelcome]
              (fire Login.applyPage Login.handleSubmit
                    (Login.withDraft Login.ModeLogin "ana" "4821")))
    as [w' |] eqn:H.
  - exists w'. split; [reflexivity |].
    apply (processing_flag_is_never_cleared
             _ (fire Login.applyPage Login.handleSubmit
                     (Login.withDraft Login.ModeLogin "ana" "4821"))
             w' eq_refl H).
  - vm_compute in H. discriminate H.
Defined.

(** ** The voice commands the cards advertise *)

(** Every card of the dashboard advertises a voice command, and each of them
    works: said as it is written, it selects the branch of its own card, and
    in every state the effect then opens the mode of that card. *)
Theorem advertised_voice_commands_open_their_cards :
  Forall (fun m =>
            Dashboard.classify
              (JS.trim (JS.toLowerCase (DashboardUI.voiceCommand m)))
            = DashboardUI.intentFor (DashboardUI.id m))
         DashboardUI.modes
  /\ forall (w : Dashboard.World) (m : DashboardUI.ModeConfig),
      In m DashboardUI.modes ->
      lastResult w = DashboardUI.voiceCommand m ->
      Dashboard.currentMode
        (page (fire Dashboard.applyPage Dashboard.voiceCommandEffect w))
      = DashboardUI.id m.
Proof.
  split; [repeat constructor |].
  intros w m Hm Hl. unfold fire, Dashboard.voiceCommandEffect. rewrite Hl.
  cbn in Hm.
  destruct Hm as [<- | [<- | [<- | [<- | [<- | [<- | []]]]]]];
    cbn [DashboardUI.voiceCommand DashboardUI.id];
    match goal with
    | |- context [Dashboard.classify ?c] =>
        let v := eval vm_compute in (Dashboard.classify c) in
        change (Dashboard.classify c) with v
    end;
    open_world w; cbn; split_flags; reflexivity.
Qed.

Lemma advertised_voice_commands_open_their_cards_witness :
  Dashboard.currentMode
    (page (fire Dashboard.applyPage Dashboard.voiceCommandEffect
                (fire Dashboard.applyPage
                      (Hook.recognitionOnResult [(true, "Find jobs")])
                      Dashboard.initial)))
  = Dashboard.ModeJobs.
Proof.
  destruct advertised_voice_commands_open_their_cards as [_ H].
  apply (H _ (DashboardUI.mkModeConfig
                Dashboard.ModeJobs "Find Jobs"
                "Explore accessible job opportunities in government and private sectors."
                "Find jobs")).
  - cbn. auto 10.
  - reflexivity.
Defined.
